(** * Point-of-sale component: aggregation, mutation and persistence

    A shallow embedding of [src/app/components/posSystem.tsx].

    - A JavaScript [number] that holds money ([price], [total], the revenue
      figures) is an IEEE-754 binary64 value: Rocq's primitive [float].
    - A JavaScript [number] that holds an integer ([id] from [Date.now()],
      [quantity] from [parseInt] of the numeral the form submits) is a [Z].
      The tallies of quantities are sums of such numbers: they are kept as
      integers as well, and every addition rounds to binary64 as the addition
      of the code does ([JS.plus]); [2^1024] stands for [Infinity].
    - The tallies [productSales] and [categorySales] are plain JavaScript
      objects used as dictionaries.  Module [JS] models what the component
      relies on: own properties in creation order, the members inherited from
      [Object.prototype], the [__proto__] accessor, and the enumeration order
      of [Object.keys]. *)

From Stdlib Require Import List ZArith NArith String Ascii Bool Lia.
From Stdlib Require Import Sorting.Sorted Sorting.Permutation.
From Stdlib Require Import PrimFloat SpecFloat FloatOps DecimalString.
Import ListNotations.

Local Open Scope string_scope.
Local Open Scope Z_scope.

#[local] Set Warnings "-inexact-float,-register-all".

(** ** The JavaScript object model used by the tallies *)

Module JS.

(** A primitive that an assignment can store in a tally.  [Num n] is the
    Number whose value is the integer [n], and [Num (2^1024)] and
    [Num (- 2^1024)] are the two infinities. *)
Inductive prim : Type :=
| Num (n : Z)
| NaN
| Str (s : string).

(** What a property read [o[k]] evaluates to. *)
Inductive value : Type :=
| Undefined
| Prim (p : prim)
| Native (fname : string)   (* a built-in function, e.g. [Object.prototype.toString] *)
| ObjectPrototype.          (* the object [Object.prototype] itself *)

(** Own enumerable data properties, oldest first. *)
Definition object : Type := list (string * prim).

Definition empty : object := [].

(** The function-valued members of [Object.prototype], with the [name] of
    each function. *)
Definition prototype_functions : list (string * string) :=
  [ ("constructor", "Object");
    ("hasOwnProperty", "hasOwnProperty");
    ("isPrototypeOf", "isPrototypeOf");
    ("propertyIsEnumerable", "propertyIsEnumerable");
    ("toLocaleString", "toLocaleString");
    ("toString", "toString");
    ("valueOf", "valueOf");
    ("__defineGetter__", "__defineGetter__");
    ("__defineSetter__", "__defineSetter__");
    ("__lookupGetter__", "__lookupGetter__");
    ("__lookupSetter__", "__lookupSetter__") ].

Fixpoint assoc {A : Type} (k : string) (l : list (string * A)) : option A :=
  match l with
  | [] => None
  | (k', v) :: l' => if String.eqb k k' then Some v else assoc k l'
  end.

(** [o[k]]: an own property, else what the prototype chain provides. *)
Definition get (o : object) (k : string) : value :=
  match assoc k o with
  | Some p => Prim p
  | None =>
      if String.eqb k "__proto__" then ObjectPrototype
      else match assoc k prototype_functions with
           | Some fname => Native fname
           | None => Undefined
           end
  end.

Definition mem (k : string) (l : list string) : bool :=
  existsb (String.eqb k) l.

(** Whether the prototype chain answers a read of [k]. *)
Definition inherited (k : string) : bool :=
  String.eqb k "__proto__"
  || match assoc k prototype_functions with Some _ => true | None => false end.

(** [v || 0]. *)
Definition or_zero (v : value) : value :=
  match v with
  | Undefined => Prim (Num 0)
  | Prim (Num n) => if n =? 0 then Prim (Num 0) else v
  | Prim NaN => Prim (Num 0)
  | Prim (Str s) => if String.eqb s "" then Prim (Num 0) else v
  | Native _ => v
  | ObjectPrototype => v
  end.

(** *** Integer-valued Numbers *)

Definition inf : Z := 2 ^ 1024.

Definition is_infinite (n : Z) : bool := inf <=? Z.abs n.

(** The nearest integer with at most 53 significant bits, ties to the one
    with an even significand. *)
Definition round53 (n : Z) : Z :=
  let a := Z.abs n in
  let e := Z.max 0 (Z.log2 a + 1 - 53) in
  let q := a / 2 ^ e in
  let r := a mod 2 ^ e in
  let half := 2 ^ (e - 1) in
  let up := (e >? 0) && ((r >? half) || ((r =? half) && Z.odd q)) in
  Z.sgn n * ((if up then q + 1 else q) * 2 ^ e).

(** A rounded value beyond the binary64 range is an infinity. *)
Definition overflow (n : Z) : Z :=
  if is_infinite n then Z.sgn n * inf else n.

(** The Number nearest to an integer. *)
Definition number (n : Z) : Z := overflow (round53 n).

(** [a + b] for a tally [a], possibly an infinity, and the Number of a
    finite integer [b]: the exact sum rounded to binary64. *)
Definition plus (a b : Z) : Z :=
  if is_infinite a then a else number (a + number b).

Definition digits (n : Z) : string :=
  NilZero.string_of_uint (N.to_uint (Z.to_N n)).

Fixpoint strip_zeros_rev (s : list ascii) : list ascii :=
  match s with
  | "0"%char :: s' => strip_zeros_rev s'
  | _ => s
  end.

Definition strip_zeros (s : string) : string :=
  string_of_list_ascii (rev (strip_zeros_rev (rev (list_ascii_of_string s)))).

(** [s * 10^e] in exponent notation: [d.ddde+x]. *)
Definition scientific (s e : Z) : string :=
  let ds := digits s in
  let exponent := e + Z.of_nat (String.length ds) - 1 in
  match strip_zeros ds with
  | String d EmptyString => String d ("e+" ++ digits exponent)
  | String d rest => String d ("." ++ rest ++ "e+" ++ digits exponent)
  | EmptyString => "0"
  end.

(** The decimal with the fewest digits, [k] or more, whose Number is [a];
    of two with the same number of digits the one nearer to [a]. *)
Fixpoint shortest (fuel : nat) (a len k : Z) : string :=
  match fuel with
  | O => digits a
  | S fuel' =>
      let e := len - k in
      let low := a / 10 ^ e in
      let high := low + 1 in
      let ok_low := number (low * 10 ^ e) =? a in
      let ok_high := number (high * 10 ^ e) =? a in
      let d_low := a - low * 10 ^ e in
      let d_high := high * 10 ^ e - a in
      if ok_low && ok_high then
        if (d_low <? d_high) || ((d_low =? d_high) && Z.even low)
        then scientific low e else scientific high e
      else if ok_low then scientific low e
      else if ok_high then scientific high e
      else shortest fuel' a len (k + 1)
  end.

(** [String(n)] for the Number of an integer: all the digits below [10^21],
    exponent notation from there on. *)
Definition to_string (n : Z) : string :=
  let m := number n in
  let a := Z.abs m in
  let sign := if m <? 0 then "-" else "" in
  if is_infinite m then sign ++ "Infinity"
  else if a <? 10 ^ 21 then sign ++ digits a
  else sign ++ shortest 17 a (Z.of_nat (String.length (digits a))) 1.

(** [String(f)] for a built-in function named [fname], as V8 prints it. *)
Definition native_source (fname : string) : string :=
  "function " ++ fname ++ "() { [native code] }".

(** [v + q] where [q] is the quantity of a record: addition of Numbers, or
    string concatenation once [v] converts to a string. *)
Definition add (v : value) (q : Z) : prim :=
  match v with
  | Undefined => NaN
  | Prim (Num n) => Num (plus n q)
  | Prim NaN => NaN
  | Prim (Str s) => Str (s ++ to_string q)
  | Native fname => Str (native_source fname ++ to_string q)
  | ObjectPrototype => Str ("[object Object]" ++ to_string q)
  end.

Fixpoint replace (k : string) (p : prim) (o : object) : object :=
  match o with
  | [] => []
  | (k', p') :: o' =>
      if String.eqb k k' then (k', p) :: o' else (k', p') :: replace k p o'
  end.

(** [o[k] = p] for a primitive [p].  Assigning to [__proto__] reaches the
    inherited setter, which ignores a value that is neither an object nor
    null.  Any other key updates the own property or creates it last. *)
Definition set (o : object) (k : string) (p : prim) : object :=
  if String.eqb k "__proto__" then o
  else match assoc k o with
       | Some _ => replace k p o
       | None => (o ++ [(k, p)])%list
       end.

(** [a > b].  Two numbers compare by value, an infinity being beyond every
    finite number, and two strings by code units.  In a mixed comparison the string is converted to a number; every
    string a tally can hold starts with the text of a built-in function and
    converts to NaN.  A comparison with undefined, NaN or an object that
    converts to NaN is false. *)
Definition gt (a b : value) : bool :=
  match a, b with
  | Prim (Num x), Prim (Num y) => x >? y
  | Prim (Str s), Prim (Str t) => String.ltb t s
  | _, _ => false
  end.

Definition is_digit (c : ascii) : bool :=
  let n := N_of_ascii c in ((48 <=? n) && (n <=? 57))%N.

Fixpoint digits_value (acc : N) (s : string) : option N :=
  match s with
  | EmptyString => Some acc
  | String c s' =>
      if is_digit c
      then digits_value (10 * acc + (N_of_ascii c - 48))%N s'
      else None
  end.

(** An array index: the canonical decimal numeral of an integer below
    [2^32 - 1]. *)
Definition array_index (k : string) : option N :=
  match k with
  | EmptyString => None
  | String c rest =>
      if (Ascii.eqb c "0" && negb (String.eqb rest ""))%bool then None
      else match digits_value 0 k with
           | Some n => if (n <? 4294967295)%N then Some n else None
           | None => None
           end
  end.

Definition is_index (k : string) : bool :=
  match array_index k with Some _ => true | None => false end.

Definition index_of (k : string) : N :=
  match array_index k with Some n => n | None => 0%N end.

Fixpoint insert_index (k : string) (l : list string) : list string :=
  match l with
  | [] => [k]
  | k' :: l' =>
      if (index_of k <=? index_of k')%N then k :: l else k' :: insert_index k l'
  end.

Fixpoint sort_indices (l : list string) : list string :=
  match l with
  | [] => []
  | k :: l' => insert_index k (sort_indices l')
  end.

(** Ascending numeric order of array indices. *)
Definition index_le (a b : string) : Prop := (index_of a <= index_of b)%N.

(** Enumeration order of own string keys: array indices in ascending
    numeric order, then the other keys in creation order. *)
Definition own_key_order (ks : list string) : list string :=
  (sort_indices (filter is_index ks)
     ++ filter (fun k => negb (is_index k)) ks)%list.

Definition Object_keys (o : object) : list string :=
  own_key_order (map fst o).

End JS.

(** ** The component *)

(** [Sale] of [@/types/Sale], with the fields [handleSubmit] fills in. *)
Record Sale : Type := mkSale {
  id : Z;
  date : string;
  productName : string;
  price : float;
  quantity : Z;
  category : string;
  total : float
}.

(** The number an integer denotes, rounded to binary64 when it has more than
    53 significant bits. *)
Definition number_of_Z (n : Z) : float :=
  SF2Prim (binary_normalize prec emax n 0 false).

(** The form fields as [handleSubmit] reads them: the two text fields, the
    value of [parseFloat(price)] and the value of [parseInt(quantity)]. *)
Record Form : Type := mkForm {
  form_productName : string;
  form_price : float;
  form_quantity : Z;
  form_category : string
}.

(** [handleSubmit]; [now] is the reading of [Date.now()] and [today] the
    first ten characters of [new Date().toISOString()].  The result is the
    value passed to [setSalesData]. *)
Definition handleSubmit (now : Z) (today : string) (form : Form)
    (salesData : list Sale) : list Sale :=
  let newSale :=
    {| id := now;
       date := today;
       productName := form_productName form;
       price := form_price form;
       quantity := form_quantity form;
       category := form_category form;
       total := (form_price form * number_of_Z (form_quantity form))%float |} in
  (salesData ++ [newSale])%list.

(** [deleteSale]. *)
Definition deleteSale (i : Z) (salesData : list Sale) : list Sale :=
  filter (fun sale => negb (id sale =? i)) salesData.

Record KPIs : Type := mkKPIs {
  totalSales : nat;
  totalRevenue : float;
  avgOrderValue : float;
  topProduct : string;
  topCategory : string
}.

(** The loop [salesData.forEach(sale => { o[key(sale)] = (o[key(sale)] || 0)
    + sale.quantity })] starting from the empty object. *)
Definition tally (key : Sale -> string) (salesData : list Sale) : JS.object :=
  fold_left
    (fun o sale =>
       JS.set o (key sale) (JS.add (JS.or_zero (JS.get o (key sale))) (quantity sale)))
    salesData JS.empty.

(** [Object.keys(o).reduce((a, b) => o[a] > o[b] ? a : b, 'None')]. *)
Definition top_key (o : JS.object) : string :=
  fold_left
    (fun a b => if JS.gt (JS.get o a) (JS.get o b) then a else b)
    (JS.Object_keys o) "None".

(** [calculateKPIs]. *)
Definition calculateKPIs (salesData : list Sale) : KPIs :=
  if (List.length salesData =? 0)%nat then
    {| totalSales := 0;
       totalRevenue := 0%float;
       avgOrderValue := 0%float;
       topProduct := "None";
       topCategory := "None" |}
  else
    let totalSales := List.length salesData in
    let totalRevenue :=
      fold_left (fun sum sale => (sum + total sale)%float) salesData 0%float in
    let avgOrderValue :=
      (totalRevenue / number_of_Z (Z.of_nat totalSales))%float in
    let productSales := tally productName salesData in
    let topProduct := top_key productSales in
    let categorySales := tally category salesData in
    let topCategory := top_key categorySales in
    {| totalSales := totalSales;
       totalRevenue := totalRevenue;
       avgOrderValue := avgOrderValue;
       topProduct := topProduct;
       topCategory := topCategory |}.

Record ChartEntry : Type := mkChartEntry {
  name : string;
  sales : JS.value
}.

(** [prepareChartData]. *)
Definition prepareChartData (salesData : list Sale) : list ChartEntry :=
  let productSales := tally productName salesData in
  map
    (fun product =>
       {| name := product; sales := JS.get productSales product |})
    (JS.Object_keys productSales).

(** ** Persistence *)

(** The value a JSON text denotes.  [localStorage] holds the text that
    [JSON.stringify] produced; the model keeps the document in its place.  A
    number stays in the type of the field it was read from. *)
Inductive document : Type :=
| JNull
| JInt (n : Z)
| JFloat (x : float)
| JText (s : string)
| JArray (items : list document)
| JObject (members : list (string * document)).

(** How [JSON.stringify] writes a number: NaN and the infinities become
    [null], negative zero becomes [0]. *)
Definition json_of_number (x : float) : document :=
  if is_finite x
  then JFloat (if PrimFloat.Leibniz.eqb x neg_zero then zero else x)
  else JNull.

(** The members of a record, in the order [handleSubmit] created them. *)
Definition json_of_sale (sale : Sale) : document :=
  JObject
    [ ("id", JInt (id sale));
      ("date", JText (date sale));
      ("productName", JText (productName sale));
      ("price", json_of_number (price sale));
      ("quantity", JInt (quantity sale));
      ("category", JText (category sale));
      ("total", json_of_number (total sale)) ].

Definition JSON_stringify (salesData : list Sale) : document :=
  JArray (map json_of_sale salesData).

(** Reading a parsed object as a [Sale]: each field is looked up by name and
    must hold a value of the field's type. *)
Definition sale_of_json (j : document) : option Sale :=
  match j with
  | JObject m =>
      match JS.assoc "id" m, JS.assoc "date" m, JS.assoc "productName" m,
            JS.assoc "price" m, JS.assoc "quantity" m, JS.assoc "category" m,
            JS.assoc "total" m with
      | Some (JInt i), Some (JText d), Some (JText n),
        Some (JFloat p), Some (JInt q), Some (JText c), Some (JFloat t) =>
          Some {| id := i; date := d; productName := n; price := p;
                  quantity := q; category := c; total := t |}
      | _, _, _, _, _, _, _ => None
      end
  | _ => None
  end.

Fixpoint sales_of_json (items : list document) : option (list Sale) :=
  match items with
  | [] => Some []
  | j :: items' =>
      match sale_of_json j, sales_of_json items' with
      | Some sale, Some rest => Some (sale :: rest)
      | _, _ => None
      end
  end.

(** [JSON.parse] read as [Sale[]]; [None] when the value is not one. *)
Definition JSON_parse (j : document) : option (list Sale) :=
  match j with
  | JArray items => sales_of_json items
  | _ => None
  end.

(** The items of [localStorage], by key. *)
Definition localStorage : Type := string -> option document.

Definition getItem (k : string) (ls : localStorage) : option document := ls k.

Definition setItem (k : string) (j : document) (ls : localStorage) : localStorage :=
  fun k' => if String.eqb k' k then Some j else ls k'.

(** The saving effect: [localStorage.setItem('salesData',
    JSON.stringify(salesData))]. *)
Definition save (salesData : list Sale) (ls : localStorage) : localStorage :=
  setItem "salesData" (JSON_stringify salesData) ls.

(** The loading effect: the collection the component holds afterwards.  A
    stored text is never the empty string, so the test [if (savedSales)] only
    fails when the item is absent, and the initial empty collection stays. *)
Definition load (ls : localStorage) : option (list Sale) :=
  match getItem "salesData" ls with
  | Some savedSales => JSON_parse savedSales
  | None => Some []
  end.

(** ** Vocabulary of the statements *)

(** The distinct elements of a list, each at the place of its first
    occurrence. *)
Fixpoint first_seen (l : list string) : list string :=
  match l with
  | [] => []
  | k :: l' => k :: filter (fun k' => negb (String.eqb k' k)) (first_seen l')
  end.

(** The sum of [quantity] over the records whose [key] is [k]. *)
Definition summed (key : Sale -> string) (k : string) (salesData : list Sale) : Z :=
  fold_right Z.add 0
    (map quantity (filter (fun sale => String.eqb (key sale) k) salesData)).

(** The same sum as the code takes it: from 0, in the order of the records,
    each addition rounded to binary64. *)
Definition tallied (key : Sale -> string) (k : string) (salesData : list Sale) : Z :=
  fold_left
    (fun sum sale =>
       if String.eqb (key sale) k then JS.plus sum (quantity sale) else sum)
    salesData 0.

(** The quantities are small enough for every sum of them to be exact in
    binary64. *)
Definition safe_quantities (salesData : list Sale) : Prop :=
  fold_right Z.add 0 (map (fun sale => Z.abs (quantity sale)) salesData) < 2 ^ 53.

(** No record's [key] is answered by the prototype chain of a tally. *)
Definition plain_keys (key : Sale -> string) (salesData : list Sale) : Prop :=
  Forall (fun sale => JS.inherited (key sale) = false) salesData.

(** [r] attains the greatest value of [f] on [ks], and is the last element of
    [ks] that does. *)
Definition last_greatest (f : string -> Z) (ks : list string) (r : string) : Prop :=
  exists before after,
    ks = (before ++ r :: after)%list
    /\ (forall k, In k before -> f k <= f r)
    /\ (forall k, In k after -> f k < f r).

(** [r] attains the greatest value of [f] on [ks], and is the first element
    of [ks] that does. *)
Definition first_greatest (f : string -> Z) (ks : list string) (r : string) : Prop :=
  exists before after,
    ks = (before ++ r :: after)%list
    /\ (forall k, In k before -> f k < f r)
    /\ (forall k, In k after -> f k <= f r).

(** The sum of a list of numbers, accumulated from the left starting at 0. *)
Definition sum_numbers (l : list float) : float :=
  fold_left PrimFloat.add l 0%float.

(** A number that [JSON.stringify] writes as itself. *)
Definition storable (x : float) : bool :=
  is_finite x && negb (PrimFloat.Leibniz.eqb x neg_zero).

Definition storable_sale (sale : Sale) : Prop :=
  storable (price sale) = true /\ storable (total sale) = true.

(** A session: the collection after a sequence of submissions, each with its
    clock reading, its date and its form, starting from the empty
    collection. *)
Definition submit_all (events : list (Z * string * Form)) : list Sale :=
  fold_left
    (fun salesData '(now, today, form) => handleSubmit now today form salesData)
    events [].

(** The clock reading of a submission. *)
Definition clock (event : Z * string * Form) : Z := fst (fst event).

(** No two records share an [id], and the ids increase in insertion
    order. *)
Definition ids_unique_increasing (salesData : list Sale) : Prop :=
  NoDup (map id salesData) /\ StronglySorted Z.lt (map id salesData).

(** Sample records: [p] is the unit price and [q] the quantity. *)
Definition sample (i : Z) (n c : string) (p : float) (q : Z) : Sale :=
  {| id := i; date := "2025-01-01"; productName := n; price := p;
     quantity := q; category := c; total := (p * number_of_Z q)%float |}.

(** ** The component as a state machine *)

(** What the user can do: submit the form, press [Delete] on a row, press
    [Clear All Data]. *)
Inductive event : Type :=
| Submit (now : Z) (today : string) (form : Form)
| Delete (i : Z)
| ClearAll.

(** The collection the handler of an event passes to [setSalesData]; for
    [ClearAll] the handler is [() => setSalesData([])]. *)
Definition handle (e : event) (salesData : list Sale) : list Sale :=
  match e with
  | Submit now today form => handleSubmit now today form salesData
  | Delete i => deleteSale i salesData
  | ClearAll => []
  end.

(** An event and the render that follows it: every handler passes a new
    array, so the saving effect runs. *)
Definition step (st : list Sale * localStorage) (e : event)
    : list Sale * localStorage :=
  let salesData := handle e (fst st) in
  (salesData, save salesData (snd st)).

Definition run (events : list event) (st : list Sale * localStorage)
    : list Sale * localStorage :=
  fold_left step events st.

(** The first render and its effects, each run once in the order of their
    declaration: the loading effect reads the item, the saving effect stores
    the initial empty collection, and when something was loaded the component
    renders again and the saving effect stores it.  [None] when the stored value is not a
    [Sale[]]. *)
Definition mount (ls : localStorage) : option (list Sale * localStorage) :=
  let first := save [] ls in
  match getItem "salesData" ls with
  | Some savedSales =>
      match JSON_parse savedSales with
      | Some loaded => Some (loaded, save loaded first)
      | None => None
      end
  | None => Some ([], first)
  end.

(** ** Vocabulary of the further properties *)

Definition Zsum (l : list Z) : Z := fold_right Z.add 0 l.

(** The number a tally entry holds, 0 when it holds none. *)
Definition numeric (v : JS.value) : Z :=
  match v with
  | JS.Prim (JS.Num n) => n
  | _ => 0
  end.

(** The entry the chart shows for a name tallied as a number. *)
Definition bar (salesData : list Sale) (k : string) : ChartEntry :=
  {| name := k; sales := JS.Prim (JS.Num (tallied productName k salesData)) |}.

(** The record a submission adds. *)
Definition record_of (event : Z * string * Form) : Sale :=
  let '(now, today, form) := event in
  {| id := now; date := today; productName := form_productName form;
     price := form_price form; quantity := form_quantity form;
     category := form_category form;
     total := (form_price form * number_of_Z (form_quantity form))%float |}.

(** The chart entry [entry] with [q] added to its bar, as the code adds,
    when it is the entry of product [k]. *)
Definition raise_bar (k : string) (q : Z) (entry : ChartEntry) : ChartEntry :=
  if String.eqb (name entry) k
  then {| name := name entry;
          sales := JS.Prim (JS.Num (JS.plus (numeric (sales entry)) q)) |}
  else entry.

(** A number as it comes back from JSON: negative zero has become zero. *)
Definition canonical_number (x : float) : float :=
  if PrimFloat.Leibniz.eqb x neg_zero then zero else x.

Definition canonical_sale (sale : Sale) : Sale :=
  {| id := id sale; date := date sale; productName := productName sale;
     price := canonical_number (price sale); quantity := quantity sale;
     category := category sale; total := canonical_number (total sale) |}.

Definition finite_sale (sale : Sale) : bool :=
  is_finite (price sale) && is_finite (total sale).

(** ** Facts about the object model *)

Module JSFacts.
Import JS.

Lemma mem_In k l : mem k l = true <-> In k l.
Proof.
  unfold mem. rewrite existsb_exists. split.
  - intros (x & Hx & E). apply String.eqb_eq in E. now subst.
  - intros H. exists k. split; [exact H | apply String.eqb_refl].
Qed.

Lemma mem_false k l : mem k l = false <-> ~ In k l.
Proof.
  rewrite <- mem_In. destruct (mem k l); split; congruence.
Qed.

Lemma assoc_map {A : Type} (g : string -> A) k l :
  assoc k (map (fun k' => (k', g k')) l) = if mem k l then Some (g k) else None.
Proof.
  induction l as [| a l IH]; simpl; [reflexivity |].
  destruct (String.eqb_spec k a) as [-> | Hne]; simpl; [reflexivity | exact IH].
Qed.

Lemma replace_map (g : string -> prim) k p l :
  NoDup l ->
  replace k p (map (fun k' => (k', g k')) l)
  = map (fun k' => (k', if String.eqb k' k then p else g k')) l.
Proof.
  induction 1 as [| a l Hnin Hnd IH]; simpl; [reflexivity |].
  destruct (String.eqb_spec k a) as [-> | Hne].
  - rewrite String.eqb_refl. f_equal.
    apply map_ext_in. intros b Hb.
    destruct (String.eqb_spec b a) as [-> | _]; [contradiction | reflexivity].
  - destruct (String.eqb_spec a k) as [-> | _]; [congruence |].
    now rewrite IH.
Qed.

Lemma assoc_mem {A : Type} k (l : list (string * A)) :
  mem k (map fst l) = match assoc k l with Some _ => true | None => false end.
Proof.
  unfold mem. induction l as [| [a x] l IH]; simpl; [reflexivity |].
  destruct (String.eqb k a); [reflexivity | exact IH].
Qed.

Lemma replace_keys k p o : map fst (replace k p o) = map fst o.
Proof.
  induction o as [| [a x] o IH]; simpl; [reflexivity |].
  destruct (String.eqb k a); simpl; [reflexivity | now rewrite IH].
Qed.

(** An assignment never removes a key and adds at most the assigned one,
    last; an assignment to [__proto__] adds none. *)
Lemma set_keys o k p :
  map fst (set o k p) =
    if String.eqb k "__proto__" then map fst o
    else if mem k (map fst o) then map fst o
         else (map fst o ++ [k])%list.
Proof.
  unfold set. destruct (String.eqb k "__proto__"); [reflexivity |].
  rewrite assoc_mem. destruct (assoc k o).
  - apply replace_keys.
  - now rewrite map_app.
Qed.

Lemma get_own o k p : assoc k o = Some p -> get o k = Prim p.
Proof. unfold get. now intros ->. Qed.

Lemma get_missing o k :
  assoc k o = None -> inherited k = false -> get o k = Undefined.
Proof.
  unfold get, inherited. intros -> H.
  apply orb_false_iff in H. destruct H as [-> H].
  now destruct (assoc k prototype_functions).
Qed.

Lemma or_zero_num n : or_zero (Prim (Num n)) = Prim (Num n).
Proof.
  simpl. destruct (Z.eqb_spec n 0) as [-> | _]; reflexivity.
Qed.

Lemma set_plain o k p :
  inherited k = false ->
  set o k p = match assoc k o with
              | Some _ => replace k p o
              | None => (o ++ [(k, p)])%list
              end.
Proof.
  unfold set, inherited. intros H.
  apply orb_false_iff in H. now destruct H as [-> _].
Qed.

(** *** Sums that stay exact *)

Lemma number_small n : Z.abs n < 2 ^ 53 -> number n = n.
Proof.
  intros H. unfold number, round53.
  assert (E : Z.max 0 (Z.log2 (Z.abs n) + 1 - 53) = 0).
  { destruct (Z.eq_dec (Z.abs n) 0) as [E0 | Hne].
    - rewrite E0. reflexivity.
    - assert (Z.log2 (Z.abs n) < 53) by (apply Z.log2_lt_pow2; lia). lia. }
  rewrite E. cbn [Z.gtb Z.compare andb]. rewrite Z.pow_0_r, Z.div_1_r, Z.mul_1_r.
  rewrite (Z.mul_comm (Z.sgn n)), Z.abs_sgn. unfold overflow, is_infinite.
  assert (2 ^ 53 < inf) by reflexivity.
  destruct (Z.leb_spec inf (Z.abs n)); [lia | reflexivity].
Qed.

Lemma plus_small a b :
  Z.abs a + Z.abs b < 2 ^ 53 -> plus a b = a + b.
Proof.
  intros H. unfold plus, is_infinite.
  assert (2 ^ 53 < inf) by reflexivity.
  destruct (Z.leb_spec inf (Z.abs a)); [lia |].
  rewrite (number_small b) by lia. apply number_small. lia.
Qed.

(** *** Enumeration order *)

Lemma insert_index_perm k l : Permutation (insert_index k l) (k :: l).
Proof.
  induction l as [| a l IH]; simpl; [reflexivity |].
  destruct (index_of k <=? index_of a)%N; [reflexivity |].
  rewrite IH. apply perm_swap.
Qed.

Lemma sort_indices_perm l : Permutation (sort_indices l) l.
Proof.
  induction l as [| a l IH]; simpl; [reflexivity |].
  rewrite insert_index_perm. now constructor.
Qed.

Lemma insert_index_sorted k l :
  Sorted index_le l -> Sorted index_le (insert_index k l).
Proof.
  induction 1 as [| a l Hs IH Hhd]; simpl.
  - repeat constructor.
  - destruct (N.leb_spec (index_of k) (index_of a)) as [Hle | Hgt].
    + constructor; [now constructor | now constructor].
    + constructor; [exact IH |].
      destruct l as [| b l]; simpl.
      * constructor. unfold index_le. lia.
      * destruct (N.leb_spec (index_of k) (index_of b)).
        -- constructor. unfold index_le. lia.
        -- constructor. now inversion Hhd.
Qed.

Lemma sort_indices_sorted l : Sorted index_le (sort_indices l).
Proof.
  induction l as [| a l IH]; simpl; [constructor | now apply insert_index_sorted].
Qed.

Lemma own_key_order_perm ks : Permutation (own_key_order ks) ks.
Proof.
  unfold own_key_order. rewrite sort_indices_perm.
  induction ks as [| a ks IH]; simpl; [reflexivity |].
  destruct (is_index a); simpl.
  - now constructor.
  - rewrite <- Permutation_middle. now constructor.
Qed.

Lemma own_key_order_no_index ks :
  forallb (fun k => negb (is_index k)) ks = true -> own_key_order ks = ks.
Proof.
  unfold own_key_order. induction ks as [| a ks IH]; simpl; [reflexivity |].
  intros H. apply andb_true_iff in H. destruct H as [Ha Hks].
  apply negb_true_iff in Ha. rewrite Ha. simpl.
  specialize (IH Hks).
  assert (E : filter is_index ks = []).
  { clear IH. induction ks as [| b ks IHk]; simpl in *; [reflexivity |].
    apply andb_true_iff in Hks. destruct Hks as [Hb Hks].
    apply negb_true_iff in Hb. rewrite Hb. now apply IHk. }
  rewrite E in *. simpl in *. now f_equal.
Qed.

End JSFacts.

(** ** Facts about the tallies *)

Section Tally.
Import JS JSFacts.

Variable key : Sale -> string.

Lemma first_seen_In k l : In k (first_seen l) <-> In k l.
Proof.
  induction l as [| a l IH]; simpl; [tauto |].
  rewrite filter_In, IH, negb_true_iff.
  destruct (String.eqb_spec k a) as [-> | Hne]; split; intros H.
  - now left.
  - now left.
  - destruct H as [H | [H _]]; [now left | now right].
  - destruct H as [H | H]; [now left | right; now split].
Qed.

Lemma first_seen_NoDup l : NoDup (first_seen l).
Proof.
  induction l as [| a l IH]; simpl; constructor.
  - rewrite filter_In, String.eqb_refl. simpl. intros [_ H]. discriminate.
  - now apply NoDup_filter.
Qed.

Lemma first_seen_snoc l k :
  first_seen (l ++ [k]) =
    if mem k l then first_seen l else (first_seen l ++ [k])%list.
Proof.
  induction l as [| a l IH]; simpl; [reflexivity |].
  rewrite IH. unfold mem in *. simpl.
  destruct (String.eqb_spec k a) as [-> | Hne]; simpl.
  - destruct (existsb (String.eqb a) l); [reflexivity |].
    rewrite filter_app. simpl. rewrite String.eqb_refl. simpl.
    now rewrite app_nil_r.
  - destruct (existsb (String.eqb k) l); [reflexivity |].
    rewrite filter_app. simpl.
    destruct (String.eqb_spec k a); [contradiction | reflexivity].
Qed.

Lemma mem_first_seen k l : mem k (first_seen l) = mem k l.
Proof.
  destruct (mem k l) eqn:E.
  - apply mem_In. apply first_seen_In. now apply mem_In.
  - apply mem_false. rewrite first_seen_In. now apply mem_false.
Qed.

Lemma summed_snoc k salesData sale :
  summed key k (salesData ++ [sale]) =
    summed key k salesData
    + (if String.eqb (key sale) k then quantity sale else 0).
Proof.
  unfold summed. rewrite filter_app, map_app. simpl.
  generalize (map quantity
                (filter (fun sale0 => String.eqb (key sale0) k) salesData)).
  intros l. induction l as [| z l IH]; simpl.
  - destruct (String.eqb (key sale) k); simpl; lia.
  - rewrite IH. lia.
Qed.

Lemma summed_absent k salesData :
  ~ In k (map key salesData) -> summed key k salesData = 0.
Proof.
  unfold summed. induction salesData as [| a l IH]; simpl; [reflexivity |].
  intros H. destruct (String.eqb_spec (key a) k) as [E | _].
  - exfalso. apply H. now left.
  - apply IH. intros Hin. apply H. now right.
Qed.

Lemma tallied_snoc k salesData sale :
  tallied key k (salesData ++ [sale]) =
    if String.eqb (key sale) k
    then plus (tallied key k salesData) (quantity sale)
    else tallied key k salesData.
Proof. unfold tallied. now rewrite fold_left_app. Qed.

Lemma tallied_absent k salesData :
  ~ In k (map key salesData) -> tallied key k salesData = 0.
Proof.
  induction salesData as [| sale l IH] using rev_ind; [reflexivity |].
  rewrite map_app, in_app_iff, tallied_snoc. simpl. intros H.
  destruct (String.eqb_spec (key sale) k) as [E | _]; [tauto |].
  apply IH. tauto.
Qed.

Lemma summed_bound k salesData :
  Z.abs (summed key k salesData)
  <= fold_right Z.add 0 (map (fun sale => Z.abs (quantity sale)) salesData).
Proof.
  unfold summed. induction salesData as [| sale l IH]; simpl; [lia |].
  destruct (String.eqb (key sale) k); simpl; lia.
Qed.

(** Below [2^53] the sums of the code are the exact sums. *)
Lemma tallied_exact k salesData :
  safe_quantities salesData -> tallied key k salesData = summed key k salesData.
Proof.
  unfold safe_quantities.
  induction salesData as [| sale l IH] using rev_ind; [reflexivity |].
  rewrite map_app, fold_right_app. simpl. intros H.
  assert (Hsplit : forall (l0 : list Z) c,
            fold_right Z.add c l0 = fold_right Z.add 0 l0 + c).
  { induction l0 as [| z l0 IHl]; intros c; simpl; [lia | rewrite IHl; lia]. }
  rewrite Hsplit in H. rewrite tallied_snoc, summed_snoc.
  assert (Hl : fold_right Z.add 0 (map (fun s => Z.abs (quantity s)) l) >= 0).
  { clear. induction l as [| a l IHl]; simpl; lia. }
  rewrite IH by lia. pose proof (summed_bound k l).
  destruct (String.eqb (key sale) k); [| lia].
  apply plus_small. lia.
Qed.

Lemma tally_snoc salesData sale :
  tally key (salesData ++ [sale]) =
    let o := tally key salesData in
    set o (key sale) (add (or_zero (get o (key sale))) (quantity sale)).
Proof. unfold tally. now rewrite fold_left_app. Qed.

(** With plain keys a tally holds, for each distinct key in order of first
    occurrence, the sum of the quantities recorded under it. *)
Lemma tally_plain salesData :
  plain_keys key salesData ->
  tally key salesData =
    map (fun k => (k, Num (tallied key k salesData)))
      (first_seen (map key salesData)).
Proof.
  induction salesData as [| sale salesData IH] using rev_ind; intros Hp.
  - reflexivity.
  - apply Forall_app in Hp. destruct Hp as [Hp Hs].
    apply Forall_inv in Hs. specialize (IH Hp).
    rewrite tally_snoc. cbv zeta. rewrite IH. clear IH.
    rewrite map_app. simpl map. rewrite first_seen_snoc.
    set (names := map key salesData).
    set (k := key sale) in *.
    rewrite (set_plain _ _ _ Hs).
    pose proof (assoc_map (fun k' => Num (tallied key k' salesData)) k
                  (first_seen names)) as Ha.
    rewrite mem_first_seen in Ha. destruct (mem k names) eqn:E.
    + rewrite (get_own _ _ _ Ha), Ha, or_zero_num. simpl add.
      rewrite replace_map by apply first_seen_NoDup.
      apply map_ext. intros k'. rewrite tallied_snoc. fold k.
      rewrite (String.eqb_sym k k').
      destruct (String.eqb_spec k' k) as [-> | _]; reflexivity.
    + rewrite (get_missing _ _ Ha Hs), Ha. simpl.
      rewrite map_app. simpl. f_equal.
      * apply map_ext_in. intros k' Hk'. rewrite tallied_snoc. fold k.
        destruct (String.eqb_spec k k') as [<- | _]; [| reflexivity].
        apply mem_false in E. exfalso. apply E.
        now apply (first_seen_In k names).
      * rewrite tallied_snoc. fold k. rewrite String.eqb_refl.
        rewrite tallied_absent by (now apply mem_false). reflexivity.
Qed.

(** The keys of a tally, whatever the keys of the records are: the distinct
    keys other than [__proto__], in order of first occurrence. *)
Lemma tally_keys salesData :
  map fst (tally key salesData) =
    first_seen
      (filter (fun k => negb (String.eqb k "__proto__")) (map key salesData)).
Proof.
  induction salesData as [| sale salesData IH] using rev_ind; [reflexivity |].
  rewrite tally_snoc. cbv zeta. rewrite set_keys, IH, map_app, filter_app.
  simpl. destruct (String.eqb (key sale) "__proto__"); simpl.
  - now rewrite app_nil_r.
  - now rewrite first_seen_snoc, mem_first_seen.
Qed.

End Tally.

(** ** Facts about the selection of the top key *)

Section TopKey.
Import JS JSFacts.

Variable v : string -> value.
Variable f : string -> Z.

Let better (a b : string) : string := if gt (v a) (v b) then a else b.

(** Folding from an accumulator that has a numeric tally. *)
Lemma fold_better_numeric ks a :
  v a = Prim (Num (f a)) ->
  (forall k, In k ks -> v k = Prim (Num (f k))) ->
  (fold_left better ks a = a /\ forall k, In k ks -> f k < f a)
  \/ (last_greatest f ks (fold_left better ks a)
      /\ f a <= f (fold_left better ks a)).
Proof.
  revert a. induction ks as [| k ks IH]; intros a Ha Hks; simpl.
  - left. split; [reflexivity | intros k []].
  - assert (Hk : v k = Prim (Num (f k))) by (apply Hks; now left).
    assert (Hks' : forall k', In k' ks -> v k' = Prim (Num (f k')))
      by (intros k' H'; apply Hks; now right).
    assert (Hstep : better a k = if f a >? f k then a else k)
      by (unfold better; now rewrite Ha, Hk).
    rewrite Hstep. clear Hstep.
    destruct (Z.gtb_spec (f a) (f k)) as [Hgt | Hle].
    + destruct (IH a Ha Hks') as [[E Hall] | [(b & c & E & Hb & Hc) Hge]].
      * left. split; [exact E |].
        intros k' [<- | H']; [lia | now apply Hall].
      * right. split; [| exact Hge].
        exists (k :: b), c. rewrite E at 1. split; [reflexivity |].
        split; [| exact Hc].
        intros k' [<- | H']; [lia | now apply Hb].
    + destruct (IH k Hk Hks') as [[E Hall] | [(b & c & E & Hb & Hc) Hge]].
      * right. rewrite E. split; [| lia].
        exists [], ks. split; [reflexivity |].
        split; [intros k' [] | exact Hall].
      * right. split; [| lia].
        exists (k :: b), c. rewrite E at 1. split; [reflexivity |].
        split; [| exact Hc].
        intros k' [<- | H']; [lia | now apply Hb].
Qed.

(** Folding from an accumulator that has no tally, or is one of the keys. *)
Lemma fold_better_spec ks a :
  ks <> [] ->
  (forall k, In k ks -> v k = Prim (Num (f k))) ->
  v a = Undefined \/ In a ks ->
  last_greatest f ks (fold_left better ks a).
Proof.
  intros Hne Hks [Hu | Hin].
  - destruct ks as [| k ks]; [congruence |]. simpl.
    assert (Hstep : better a k = k) by (unfold better; now rewrite Hu).
    rewrite Hstep. clear Hstep.
    assert (Hk : v k = Prim (Num (f k))) by (apply Hks; now left).
    assert (Hks' : forall k', In k' ks -> v k' = Prim (Num (f k')))
      by (intros k' H'; apply Hks; now right).
    destruct (fold_better_numeric ks k Hk Hks')
      as [[E Hall] | [(b & c & E & Hb & Hc) Hge]].
    + rewrite E. exists [], ks. split; [reflexivity |].
      split; [intros k' [] | exact Hall].
    + exists (k :: b), c. rewrite E at 1. split; [reflexivity |].
      split; [| exact Hc].
      intros k' [<- | H']; [lia | now apply Hb].
  - destruct (fold_better_numeric ks a (Hks a Hin) Hks) as [[_ Hall] | [H _]].
    + specialize (Hall a Hin). lia.
    + exact H.
Qed.

(** Whatever the tallies hold, the fold returns its start or a key. *)
Lemma fold_better_In ks a :
  fold_left better ks a = a \/ In (fold_left better ks a) ks.
Proof.
  revert a. induction ks as [| k ks IH]; intros a; simpl; [now left |].
  destruct (IH (better a k)) as [E | H]; [| now right; right].
  rewrite E. unfold better. destruct (gt (v a) (v k)); [now left | right; now left].
Qed.

End TopKey.

(** ** Facts about the component *)

Section Component.
Import JS JSFacts.

Lemma last_greatest_In f ks r : last_greatest f ks r -> In r ks.
Proof.
  intros (b & c & -> & _). apply in_or_app. right. now left.
Qed.

Lemma last_greatest_strict f ks r k :
  last_greatest f ks r ->
  In k ks -> (forall k', In k' ks -> k' <> k -> f k' < f k) -> r = k.
Proof.
  intros Hr Hk Hmax. destruct (string_dec r k) as [E | Hne]; [exact E |].
  pose proof (Hmax r (last_greatest_In _ _ _ Hr) Hne) as Hlt.
  destruct Hr as (b & c & -> & Hb & Hc).
  apply in_app_or in Hk. destruct Hk as [Hk | [Hk | Hk]].
  - specialize (Hb k Hk). lia.
  - congruence.
  - specialize (Hc k Hk). lia.
Qed.

Lemma top_key_tally key salesData :
  salesData <> [] ->
  plain_keys key salesData ->
  last_greatest (fun k => tallied key k salesData)
    (own_key_order (first_seen (map key salesData)))
    (top_key (tally key salesData)).
Proof.
  intros Hne Hp. rewrite (tally_plain key salesData Hp).
  unfold top_key, Object_keys. rewrite map_map. simpl. rewrite map_id.
  set (names := first_seen (map key salesData)).
  set (o := map (fun k => (k, Num (tallied key k salesData))) names).
  assert (Hown : forall k, In k names ->
            get o k = Prim (Num (tallied key k salesData))).
  { intros k Hk. apply get_own. unfold o.
    rewrite (assoc_map (fun k' => Num (tallied key k' salesData))).
    apply mem_In in Hk. now rewrite Hk. }
  apply fold_better_spec.
  - destruct salesData as [| sale rest]; [congruence |].
    intros E. pose proof (own_key_order_perm names) as P.
    rewrite E in P. apply Permutation_nil in P. discriminate.
  - intros k Hk. apply Hown.
    now apply (Permutation_in _ (own_key_order_perm names)).
  - destruct (mem "None" names) eqn:E.
    + right. apply mem_In in E.
      now apply (Permutation_in _ (Permutation_sym (own_key_order_perm names))).
    + left. apply get_missing; [| reflexivity]. unfold o.
      rewrite (assoc_map (fun k' => Num (tallied key k' salesData))).
      now rewrite E.
Qed.

(** A tally with at least one key has its top key among its keys. *)
Lemma top_key_In o : Object_keys o <> [] -> In (top_key o) (Object_keys o).
Proof.
  intros Hne. unfold top_key.
  pose proof (fold_better_In (get o) (Object_keys o) "None") as H.
  destruct (assoc "None" o) as [p |] eqn:E.
  - destruct H as [-> | H]; [| exact H].
    apply (Permutation_in _ (Permutation_sym (own_key_order_perm (map fst o)))).
    apply mem_In. rewrite assoc_mem. now rewrite E.
  - clear H. destruct (Object_keys o) as [| k ks]; [congruence |]. simpl.
    rewrite (get_missing o "None" E eq_refl). simpl.
    destruct (fold_better_In (get o) ks k) as [-> | H]; [now left | now right].
Qed.

(** Unless every record is keyed [__proto__], the top key of a tally is the
    key of some record. *)
Lemma top_key_member key salesData :
  Exists (fun sale => key sale <> "__proto__") salesData ->
  In (top_key (tally key salesData)) (map key salesData).
Proof.
  intros Hex.
  set (ks := filter (fun k => negb (String.eqb k "__proto__")) (map key salesData)).
  assert (Hin : forall k, In k (Object_keys (tally key salesData)) <-> In k ks).
  { intros k. unfold Object_keys. rewrite tally_keys. fold ks.
    rewrite <- (first_seen_In k ks). split.
    - apply Permutation_in, own_key_order_perm.
    - apply Permutation_in, Permutation_sym, own_key_order_perm. }
  assert (Hne : Object_keys (tally key salesData) <> []).
  { apply Exists_exists in Hex. destruct Hex as (sale & Hs & Hk).
    assert (H : In (key sale) ks).
    { apply filter_In. split; [now apply in_map |].
      apply negb_true_iff. now apply String.eqb_neq. }
    apply Hin in H. intros E. rewrite E in H. exact H. }
  apply top_key_In, Hin in Hne. now apply filter_In in Hne.
Qed.

Lemma calculateKPIs_nonempty salesData :
  salesData <> [] ->
  calculateKPIs salesData =
    {| totalSales := List.length salesData;
       totalRevenue :=
         fold_left (fun sum sale => (sum + total sale)%float) salesData 0%float;
       avgOrderValue :=
         (fold_left (fun sum sale => (sum + total sale)%float) salesData 0%float
          / number_of_Z (Z.of_nat (List.length salesData)))%float;
       topProduct := top_key (tally productName salesData);
       topCategory := top_key (tally category salesData) |}.
Proof.
  destruct salesData as [| sale rest]; [congruence | reflexivity].
Qed.

Lemma sum_numbers_map {A : Type} (g : A -> float) (l : list A) (acc : float) :
  fold_left (fun sum a => (sum + g a)%float) l acc
  = fold_left PrimFloat.add (map g l) acc.
Proof.
  revert acc. induction l as [| a l IH]; intros acc; simpl; [reflexivity | apply IH].
Qed.

Lemma deleteSale_keeps i salesData :
  Forall (fun sale => id sale <> i) salesData -> deleteSale i salesData = salesData.
Proof.
  unfold deleteSale. induction 1 as [| sale l Hs _ IH]; simpl; [reflexivity |].
  destruct (Z.eqb_spec (id sale) i); [contradiction |]. simpl. now f_equal.
Qed.

Lemma deleteSale_app i l1 l2 :
  deleteSale i (l1 ++ l2) = (deleteSale i l1 ++ deleteSale i l2)%list.
Proof. unfold deleteSale. apply filter_app. Qed.

Lemma submit_all_snoc events now today form :
  submit_all (events ++ [(now, today, form)])
  = handleSubmit now today form (submit_all events).
Proof. unfold submit_all. now rewrite fold_left_app. Qed.

Lemma submit_all_ids events : map id (submit_all events) = map clock events.
Proof.
  induction events as [| [[now today] form] events IH] using rev_ind;
    [reflexivity |].
  rewrite submit_all_snoc. unfold handleSubmit.
  rewrite !map_app, IH. reflexivity.
Qed.

Lemma json_of_number_storable x :
  storable x = true -> json_of_number x = JFloat x.
Proof.
  unfold storable, json_of_number. intros H.
  apply andb_true_iff in H. destruct H as [-> H].
  apply negb_true_iff in H. now rewrite H.
Qed.

Lemma sale_of_json_of_sale sale :
  storable_sale sale -> sale_of_json (json_of_sale sale) = Some sale.
Proof.
  intros [Hp Ht]. unfold json_of_sale.
  rewrite (json_of_number_storable _ Hp), (json_of_number_storable _ Ht).
  now destruct sale.
Qed.

Lemma sales_of_json_of_sales salesData :
  Forall storable_sale salesData ->
  sales_of_json (map json_of_sale salesData) = Some salesData.
Proof.
  induction 1 as [| sale rest Hs _ IH]; [reflexivity |].
  cbn [map sales_of_json].
  now rewrite (sale_of_json_of_sale _ Hs), IH.
Qed.

End Component.

(** ** The claims *)

(** Why the statements about the tallies ask for plain keys: a product named
    after a function that every object inherits is tallied as text, and its
    text never compares greater or smaller than a number. *)
Example tally_of_inherited_name :
  prepareChartData [ sample 1 "constructor" "Tools" 1%float 3 ]
  = [ {| name := "constructor";
         sales := JS.Prim (JS.Str "function Object() { [native code] }3") |} ].
Proof. reflexivity. Qed.

(** The tallies round as binary64 sums do.  Two products reach [2^53] by
    different sums and tie, so the one enumerated last is on top; the bar of
    a product depends on the order of its records; a text tally prints a
    large quantity in exponent notation; and [JS.plus] agrees with the
    addition of primitive floats, overflow included. *)
Example rounded_sums_tie :
  let salesData :=
    [ sample 1 "A" "Tools" 1%float (2 ^ 53 - 1); sample 2 "B" "Tools" 1%float (2 ^ 53 - 1);
      sample 3 "A" "Tools" 1%float 2; sample 4 "B" "Tools" 1%float 1 ] in
  topProduct (calculateKPIs salesData) = "B"
  /\ prepareChartData salesData
     = [ {| name := "A"; sales := JS.Prim (JS.Num 9007199254740992) |};
         {| name := "B"; sales := JS.Prim (JS.Num 9007199254740992) |} ].
Proof. split; reflexivity. Qed.

Example record_order_changes_bar :
  prepareChartData
    [ sample 1 "A" "Tools" 1%float (2 ^ 53 - 1); sample 2 "A" "Tools" 1%float 2;
      sample 3 "A" "Tools" 1%float 1 ]
  = [ {| name := "A"; sales := JS.Prim (JS.Num 9007199254740992) |} ]
  /\ prepareChartData
       [ sample 3 "A" "Tools" 1%float 1; sample 2 "A" "Tools" 1%float 2;
         sample 1 "A" "Tools" 1%float (2 ^ 53 - 1) ]
     = [ {| name := "A"; sales := JS.Prim (JS.Num 9007199254740994) |} ].
Proof. split; reflexivity. Qed.

Example text_of_large_quantity :
  prepareChartData [ sample 1 "constructor" "Tools" 1%float (10 ^ 21) ]
  = [ {| name := "constructor";
         sales := JS.Prim (JS.Str "function Object() { [native code] }1e+21") |} ].
Proof. vm_compute. reflexivity. Qed.

Example plus_is_binary64_addition :
  forallb
    (fun '(a, b) =>
       PrimFloat.Leibniz.eqb (number_of_Z (JS.plus a b))
         (number_of_Z a + number_of_Z b)%float)
    [ (2 ^ 53 - 1, 2); (2 ^ 53, 1); (2 ^ 53, 3); (2 ^ 60 + 2 ^ 8, 2 ^ 7);
      (2 ^ 60 + 2 ^ 8, 2 ^ 7 + 1); (-(2 ^ 53), -1); (2 ^ 53 + 2, -5);
      (2 ^ 1023, 2 ^ 1023); (2 ^ 1023, 2 ^ 1023 - 2 ^ 970);
      (2 ^ 1023, 2 ^ 1023 - 2 ^ 971); (JS.inf, 7); (123456789, 987654321) ]
  = true.
Proof. vm_compute. reflexivity. Qed.

Example top_of_inherited_name :
  topProduct
    (calculateKPIs [ sample 1 "Widget" "Tools" 1%float 5;
                     sample 2 "constructor" "Tools" 1%float 3 ])
  = "constructor".
Proof. reflexivity. Qed.

(** C1, as stated, fails: two products tie at quantity 1 and the one seen
    last, not the one seen first, is returned. *)
Lemma top_product_tie_not_first_seen :
  let salesData := [ sample 1 "A" "Tools" 1%float 1; sample 2 "B" "Tools" 1%float 1 ] in
  ~ first_greatest (fun k => summed productName k salesData)
      (first_seen (map productName salesData))
      (topProduct (calculateKPIs salesData)).
Proof.
  intros salesData (b & c & E & Hb & _).
  change (topProduct (calculateKPIs salesData)) with "B" in *.
  change (first_seen (map productName salesData)) with ["A"; "B"] in E.
  destruct b as [| x b]; [discriminate E |].
  injection E as <- E.
  specialize (Hb "A" (or_introl eq_refl)).
  vm_compute in Hb. discriminate Hb.
Qed.

(** C1, amended: for a non-empty collection whose product names and
    categories are not names that every object inherits, [topProduct] and
    [topCategory] attain the greatest summed quantity, and among the keys
    that attain it each is the one that [Object.keys] enumerates last (array
    indices in ascending order, then the other keys in order of first
    occurrence).  In particular a key whose summed quantity is strictly the
    greatest is the one returned.  The sums are the ones the code takes, in
    the order of the records and rounded to binary64 at each addition; they
    are the exact sums as long as the quantities add up to less than
    [2^53]. *)
Theorem top_keys_last_greatest (salesData : list Sale) :
  salesData <> [] ->
  plain_keys productName salesData ->
  plain_keys category salesData ->
  let kpis := calculateKPIs salesData in
  let top key r :=
    last_greatest (fun k => tallied key k salesData)
      (JS.own_key_order (first_seen (map key salesData))) r
    /\ forall k,
         In k (map key salesData) ->
         (forall k', In k' (map key salesData) -> k' <> k ->
                     tallied key k' salesData < tallied key k salesData) ->
         r = k in
  top productName (topProduct kpis) /\ top category (topCategory kpis)
  /\ (safe_quantities salesData ->
      forall key k, tallied key k salesData = summed key k salesData).
Proof.
  intros Hne Hp Hc kpis top. subst kpis.
  rewrite (calculateKPIs_nonempty _ Hne). simpl.
  assert (H : forall key, plain_keys key salesData ->
                top key (top_key (tally key salesData))).
  { intros key Hk. pose proof (top_key_tally key salesData Hne Hk) as Hl.
    split; [exact Hl |]. intros k Hin Hmax.
    assert (Hperm : forall x,
              In x (JS.own_key_order (first_seen (map key salesData)))
              <-> In x (map key salesData)).
    { intros x. rewrite <- (first_seen_In x (map key salesData)). split.
      - apply Permutation_in, JSFacts.own_key_order_perm.
      - apply Permutation_in, Permutation_sym, JSFacts.own_key_order_perm. }
    apply (last_greatest_strict _ _ _ k Hl).
    - now apply Hperm.
    - intros k' Hk'. apply Hmax. now apply Hperm. }
  split; [now apply H |]. split; [now apply H |].
  intros Hsafe key k. now apply tallied_exact.
Qed.

Lemma top_keys_last_greatest_witness :
  let salesData :=
    [ sample 1 "A" "Tools" 1%float 1; sample 2 "B" "Toys" 1%float 1;
      sample 3 "7" "Toys" 2%float 1 ] in
  last_greatest (fun k => summed productName k salesData)
    (JS.own_key_order (first_seen (map productName salesData)))
    (topProduct (calculateKPIs salesData))
  /\ topCategory (calculateKPIs salesData) = "Toys"
  /\ tallied productName "A" salesData = 1.
Proof.
  intros salesData.
  assert (Hne : salesData <> []) by discriminate.
  assert (Hp : plain_keys productName salesData)
    by (repeat constructor).
  assert (Hc : plain_keys category salesData)
    by (repeat constructor).
  assert (Hs : safe_quantities salesData) by reflexivity.
  destruct (top_keys_last_greatest salesData Hne Hp Hc) as ([H1 _] & [_ H2] & H3).
  specialize (H3 Hs). split; [| split].
  - destruct H1 as (b & c & E & Hb & Hc'). exists b, c.
    split; [exact E |]. split; intros k Hk.
    + rewrite <- !H3. now apply Hb.
    + rewrite <- !H3. now apply Hc'.
  - apply H2.
    + simpl. tauto.
    + intros k' Hk' Hneq. simpl in Hk'.
      destruct Hk' as [<- | [<- | [<- | []]]]; try congruence; vm_compute; reflexivity.
  - rewrite H3. reflexivity.
Defined.

(** C2: [totalSales] is the number of records, [totalRevenue] the sum of
    their [total] fields, [avgOrderValue] the quotient of the two unless the
    collection is empty; on the empty collection revenue and average are 0. *)
Theorem calculateKPIs_totals (salesData : list Sale) :
  let kpis := calculateKPIs salesData in
  totalSales kpis = List.length salesData
  /\ totalRevenue kpis = sum_numbers (map total salesData)
  /\ avgOrderValue kpis =
       (if (totalSales kpis =? 0)%nat then 0
        else totalRevenue kpis / number_of_Z (Z.of_nat (totalSales kpis)))%float
  /\ totalRevenue (calculateKPIs []) = 0%float
  /\ avgOrderValue (calculateKPIs []) = 0%float.
Proof.
  destruct salesData as [| sale rest].
  - repeat split.
  - cbv zeta. rewrite calculateKPIs_nonempty by discriminate.
    unfold sum_numbers. rewrite <- sum_numbers_map.
    repeat split.
Qed.

(** C3, as stated, fails: a product whose name is an array index is listed
    before a product that was entered earlier. *)
Lemma chart_order_not_first_seen :
  let salesData := [ sample 1 "Widget" "Tools" 1%float 2; sample 2 "7" "Tools" 1%float 3 ] in
  map name (prepareChartData salesData) <> first_seen (map productName salesData).
Proof. vm_compute. discriminate. Qed.

(** C3, amended: for a collection whose product names are not names that
    every object inherits, [prepareChartData] returns exactly one entry per
    distinct [productName], whose [sales] is the sum of [quantity] over the
    records with that name; the names that are array indices come first, in
    ascending numeric order, and the other names follow in the order in which
    they were first encountered.  When no name is an array index the entries
    are in order of first encounter.  The sums are the ones the code takes,
    in the order of the records and rounded to binary64 at each addition;
    they are the exact sums as long as the quantities add up to less than
    [2^53]. *)
Theorem prepareChartData_spec (salesData : list Sale) :
  plain_keys productName salesData ->
  let names := first_seen (map productName salesData) in
  prepareChartData salesData =
    map (fun k => {| name := k;
                     sales := JS.Prim (JS.Num (tallied productName k salesData)) |})
      (JS.sort_indices (filter JS.is_index names)
         ++ filter (fun k => negb (JS.is_index k)) names)
  /\ (safe_quantities salesData ->
      forall k, tallied productName k salesData = summed productName k salesData)
  /\ Sorted JS.index_le (JS.sort_indices (filter JS.is_index names))
  /\ Permutation (map name (prepareChartData salesData)) names
  /\ NoDup (map name (prepareChartData salesData))
  /\ (forallb (fun k => negb (JS.is_index k)) names = true ->
      map name (prepareChartData salesData) = names).
Proof.
  intros Hp names.
  assert (E : prepareChartData salesData =
              map (fun k => {| name := k;
                               sales := JS.Prim (JS.Num (tallied productName k salesData)) |})
                (JS.own_key_order names)).
  { unfold prepareChartData. rewrite (tally_plain productName salesData Hp).
    unfold JS.Object_keys. rewrite map_map. simpl. rewrite map_id. fold names.
    apply map_ext_in. intros k Hk. f_equal.
    apply JSFacts.get_own.
    rewrite (JSFacts.assoc_map (fun k' => JS.Num (tallied productName k' salesData))).
    assert (Hin : In k names)
      by (now apply (Permutation_in _ (JSFacts.own_key_order_perm names))).
    apply JSFacts.mem_In in Hin. now rewrite Hin. }
  assert (N : map name (prepareChartData salesData) = JS.own_key_order names).
  { rewrite E, map_map. simpl. apply map_id. }
  split; [exact E |].
  split; [intros Hsafe k; now apply tallied_exact |].
  split; [apply JSFacts.sort_indices_sorted |].
  split; [rewrite N; apply JSFacts.own_key_order_perm |].
  split.
  - rewrite N.
    apply (Permutation_NoDup (Permutation_sym (JSFacts.own_key_order_perm names))).
    apply first_seen_NoDup.
  - intros Hno. rewrite N. now apply JSFacts.own_key_order_no_index.
Qed.

Lemma prepareChartData_spec_witness :
  let salesData :=
    [ sample 1 "Widget" "Tools" 1%float 2; sample 2 "Gadget" "Tools" 1%float 3;
      sample 3 "Widget" "Tools" 1%float 4 ] in
  map name (prepareChartData salesData) = ["Widget"; "Gadget"]
  /\ map sales (prepareChartData salesData)
     = [JS.Prim (JS.Num 6); JS.Prim (JS.Num 3)].
Proof.
  intros salesData.
  assert (Hp : plain_keys productName salesData) by (repeat constructor).
  destruct (prepareChartData_spec salesData Hp) as (E & _ & _ & _ & _ & Hord).
  split.
  - apply Hord. reflexivity.
  - rewrite E. reflexivity.
Defined.

(** C4: [deleteSale] removes the record whose [id] is the given one and
    leaves the others in place and in order; when no record has that [id] the
    collection is unchanged. *)
Theorem deleteSale_spec (i : Z) (salesData : list Sale) :
  (forall before sale after,
      salesData = (before ++ sale :: after)%list ->
      id sale = i ->
      Forall (fun other => id other <> i) (before ++ after) ->
      deleteSale i salesData = (before ++ after)%list)
  /\ (Forall (fun other => id other <> i) salesData ->
      deleteSale i salesData = salesData)
  /\ (forall sale, In sale (deleteSale i salesData)
                   <-> In sale salesData /\ id sale <> i).
Proof.
  split; [| split].
  - intros before sale after -> Hid Hothers.
    apply Forall_app in Hothers. destruct Hothers as [Hb Ha].
    rewrite deleteSale_app. change (sale :: after) with ([sale] ++ after)%list.
    rewrite deleteSale_app, (deleteSale_keeps _ _ Hb), (deleteSale_keeps _ _ Ha).
    unfold deleteSale at 1. simpl. rewrite Hid, Z.eqb_refl. reflexivity.
  - apply deleteSale_keeps.
  - intros sale. unfold deleteSale. rewrite filter_In, negb_true_iff.
    now rewrite Z.eqb_neq.
Qed.

Lemma deleteSale_spec_witness :
  let a := sample 1 "Widget" "Tools" 1%float 2 in
  let b := sample 2 "Gadget" "Tools" 1%float 3 in
  let c := sample 3 "Widget" "Tools" 1%float 4 in
  deleteSale 2 [a; b; c] = [a; c] /\ deleteSale 9 [a; b; c] = [a; b; c].
Proof.
  intros a b c. split.
  - destruct (deleteSale_spec 2 [a; b; c]) as [H _].
    apply (H [a] b [c]); [reflexivity | reflexivity |].
    repeat constructor; simpl; lia.
  - destruct (deleteSale_spec 9 [a; b; c]) as (_ & H & _).
    apply H. repeat constructor; simpl; lia.
Defined.

(** C5: [handleSubmit] appends one record after the records already present,
    which stay as they were; its [total] is [price * quantity], and so is the
    [total] of every record of a collection built by submissions. *)
Theorem handleSubmit_appends (now : Z) (today : string) (form : Form)
    (salesData : list Sale) :
  (exists newSale,
      handleSubmit now today form salesData = (salesData ++ [newSale])%list
      /\ total newSale = (price newSale * number_of_Z (quantity newSale))%float
      /\ id newSale = now
      /\ date newSale = today
      /\ productName newSale = form_productName form
      /\ category newSale = form_category form
      /\ price newSale = form_price form
      /\ quantity newSale = form_quantity form)
  /\ forall events,
       Forall (fun sale => total sale = (price sale * number_of_Z (quantity sale))%float)
         (submit_all events).
Proof.
  split.
  - eexists. split; [reflexivity |]. simpl. repeat split.
  - induction events as [| [[now' today'] form'] events IH] using rev_ind.
    + constructor.
    + rewrite submit_all_snoc. unfold handleSubmit.
      apply Forall_app. split; [exact IH |]. now constructor.
Qed.

(** C6 at two submissions that read the same clock value: both records get
    that value as [id], so the ids are not unique, and deleting one of the
    two sales deletes both. *)
Theorem same_clock_same_id :
  let salesData :=
    submit_all [ (1000, "2025-01-01", mkForm "Widget" 1%float 1 "Tools");
                 (1000, "2025-01-01", mkForm "Gadget" 2%float 1 "Toys") ] in
  map id salesData = [1000; 1000]
  /\ map productName salesData = ["Widget"; "Gadget"]
  /\ ~ ids_unique_increasing salesData
  /\ deleteSale 1000 salesData = [].
Proof.
  intros salesData. repeat split.
  intros [Hnd _]. simpl in Hnd.
  inversion Hnd as [| x l Hnin _]. apply Hnin. now left.
Qed.

(** C7 at a sale whose total overflows: price [1e308] and quantity 10 give
    the total [Infinity], JSON writes it as [null], and what is loaded after
    the save is not the collection that was saved. *)
Theorem round_trip_loses_overflowed_total :
  let salesData :=
    handleSubmit 1 "2025-01-01" (mkForm "Widget" 1e308%float 10 "Tools") [] in
  map price salesData = [1e308%float]
  /\ map total salesData = [PrimFloat.infinity]
  /\ JSON_stringify salesData =
       JArray [ JObject [ ("id", JInt 1); ("date", JText "2025-01-01");
                          ("productName", JText "Widget");
                          ("price", JFloat 1e308%float); ("quantity", JInt 10);
                          ("category", JText "Tools"); ("total", JNull) ] ]
  /\ forall ls, load (save salesData ls) <> Some salesData.
Proof.
  intros salesData. repeat split.
  intros ls. vm_compute. discriminate.
Qed.

(** X18: a collection whose prices and totals are finite numbers other than
    negative zero is read back as saved, field for field and in the same
    order. *)
Theorem load_save (salesData : list Sale) (ls : localStorage) :
  Forall storable_sale salesData ->
  load (save salesData ls) = Some salesData.
Proof.
  intros H. unfold load, save, getItem, setItem.
  rewrite String.eqb_refl. unfold JSON_stringify, JSON_parse.
  now apply sales_of_json_of_sales.
Qed.

Lemma load_save_witness :
  let salesData :=
    [ sample 1 "Widget" "Tools" 9.99%float 3; sample 2 "Widget" "Tools" 9.99%float 2 ] in
  load (save salesData (fun _ => None)) = Some salesData.
Proof.
  intros salesData. apply load_save.
  repeat constructor.
Defined.

(** C8: on the empty collection [calculateKPIs] returns the defaults. *)
Theorem calculateKPIs_empty :
  calculateKPIs [] =
    {| totalSales := 0; totalRevenue := 0%float; avgOrderValue := 0%float;
       topProduct := "None"; topCategory := "None" |}.
Proof. reflexivity. Qed.

(** C9: after the two Widget sales are recorded, starting from the empty
    collection, the indicators and the chart series are the ones listed. *)
Theorem scenario_widget (now1 now2 : Z) (today1 today2 : string) :
  let c1 := handleSubmit now1 today1 (mkForm "Widget" 9.99%float 3 "Tools") [] in
  let c2 := handleSubmit now2 today2 (mkForm "Widget" 9.99%float 2 "Tools") c1 in
  calculateKPIs c2 =
    {| totalSales := 2; totalRevenue := 49.95%float; avgOrderValue := 24.975%float;
       topProduct := "Widget"; topCategory := "Tools" |}
  /\ prepareChartData c2 = [ {| name := "Widget"; sales := JS.Prim (JS.Num 5) |} ].
Proof. intros c1 c2. split; vm_compute; reflexivity. Qed.

(** C10 at a product named [__proto__]: the collection is not empty and no
    record is named [None], yet [topProduct] is [None]; likewise for a
    category named [__proto__]. *)
Theorem top_product_proto :
  let salesData := [ sample 1 "__proto__" "__proto__" 1%float 1 ] in
  salesData <> []
  /\ ~ In "None" (map productName salesData)
  /\ ~ In "None" (map category salesData)
  /\ topProduct (calculateKPIs salesData) = "None"
  /\ topCategory (calculateKPIs salesData) = "None"
  /\ ~ In (topProduct (calculateKPIs salesData)) (map productName salesData)
  /\ ~ In (topCategory (calculateKPIs salesData)) (map category salesData).
Proof.
  intros salesData.
  assert (N : ~ In "None" ["__proto__"])
    by (intros [H | []]; discriminate H).
  repeat split; try discriminate; try reflexivity; exact N.
Qed.

(** ** Further properties of the aggregation *)

Section Aggregation.
Import JS JSFacts.

Variable key : Sale -> string.

Lemma summed_cons k sale salesData :
  summed key k (sale :: salesData) =
    (if String.eqb (key sale) k then quantity sale else 0)
    + summed key k salesData.
Proof.
  unfold summed. simpl. destruct (String.eqb (key sale) k); reflexivity.
Qed.

Lemma summed_perm k l l' :
  Permutation l l' -> summed key k l = summed key k l'.
Proof.
  induction 1 as [| a l l' _ IH | a b l | l l' l'' _ IH1 _ IH2].
  - reflexivity.
  - now rewrite !summed_cons, IH.
  - rewrite !summed_cons. lia.
  - now rewrite IH1.
Qed.

Lemma Zsum_perm l l' : Permutation l l' -> Zsum l = Zsum l'.
Proof.
  unfold Zsum.
  induction 1 as [| a l l' _ IH | a b l | l l' l'' _ IH1 _ IH2]; simpl; lia.
Qed.

Lemma Zsum_map_add {A : Type} (f g : A -> Z) l :
  Zsum (map (fun a => f a + g a) l) = Zsum (map f l) + Zsum (map g l).
Proof.
  unfold Zsum. induction l as [| a l IH]; simpl; lia.
Qed.

Lemma Zsum_indicator k0 q ks :
  NoDup ks ->
  Zsum (map (fun k => if String.eqb k0 k then q else 0) ks)
  = if mem k0 ks then q else 0.
Proof.
  unfold Zsum, mem.
  induction 1 as [| a l Hnin _ IH]; simpl; [reflexivity |].
  rewrite IH. destruct (String.eqb_spec k0 a) as [-> | _]; simpl; [| reflexivity].
  apply mem_false in Hnin. unfold mem in Hnin. rewrite Hnin. lia.
Qed.

(** Summing, over a duplicate-free list that holds every key, the quantity
    recorded under each key gives the quantity recorded in all. *)
Lemma Zsum_summed ks salesData :
  NoDup ks ->
  (forall sale, In sale salesData -> In (key sale) ks) ->
  Zsum (map (fun k => summed key k salesData) ks) = Zsum (map quantity salesData).
Proof.
  intros Hnd. induction salesData as [| sale l IH]; intros Hin.
  - unfold Zsum. induction ks as [| k ks' IHk]; simpl; [reflexivity |].
    apply NoDup_cons_iff in Hnd. now rewrite IHk.
  - rewrite (map_ext _ _ (fun k => summed_cons k sale l)).
    rewrite (Zsum_map_add
               (fun k => if String.eqb (key sale) k then quantity sale else 0)
               (fun k => summed key k l)).
    rewrite (Zsum_indicator _ _ _ Hnd), IH by (intros s Hs; apply Hin; now right).
    assert (Hm : mem (key sale) ks = true)
      by (apply mem_In, Hin; now left).
    rewrite Hm. reflexivity.
Qed.

Lemma safe_quantities_perm (l l' : list Sale) :
  Permutation l l' -> safe_quantities l -> safe_quantities l'.
Proof.
  unfold safe_quantities. intros P H.
  pose proof (Zsum_perm _ _
                (Permutation_map (fun sale => Z.abs (quantity sale)) P)) as E.
  unfold Zsum in E. now rewrite <- E.
Qed.

Lemma plain_keys_perm l l' :
  Permutation l l' -> plain_keys key l -> plain_keys key l'.
Proof. intros P H. unfold plain_keys in *. now rewrite <- P. Qed.

Lemma own_key_order_In k ks : In k (own_key_order ks) <-> In k ks.
Proof.
  split.
  - apply Permutation_in, own_key_order_perm.
  - apply Permutation_in, Permutation_sym, own_key_order_perm.
Qed.

Lemma own_key_order_snoc ks k :
  is_index k = false -> own_key_order (ks ++ [k]) = (own_key_order ks ++ [k])%list.
Proof.
  intros H. unfold own_key_order. rewrite !filter_app. simpl. rewrite H. simpl.
  now rewrite app_nil_r, app_assoc.
Qed.

Lemma tally_ext l l' :
  map (fun sale => (key sale, quantity sale)) l
  = map (fun sale => (key sale, quantity sale)) l' ->
  tally key l = tally key l'.
Proof.
  unfold tally. generalize empty. revert l'.
  induction l as [| a l IH]; intros [| a' l'] o E; try discriminate E;
    [reflexivity |].
  simpl in E. injection E as Hk Hq E. simpl. rewrite Hk, Hq. now apply IH.
Qed.

End Aggregation.

Section Chart.
Import JS JSFacts.

Lemma prepareChartData_plain salesData :
  plain_keys productName salesData ->
  prepareChartData salesData =
    map (bar salesData) (own_key_order (first_seen (map productName salesData))).
Proof.
  intros Hp. unfold prepareChartData.
  rewrite (tally_plain productName salesData Hp).
  unfold Object_keys. rewrite map_map. simpl. rewrite map_id.
  apply map_ext_in. intros k Hk. unfold bar. f_equal.
  apply get_own.
  rewrite (assoc_map (fun k' => Num (tallied productName k' salesData))).
  apply (proj1 (own_key_order_In _ _)) in Hk.
  apply (proj2 (mem_In _ _)) in Hk. now rewrite Hk.
Qed.

Lemma prepareChartData_names salesData :
  map name (prepareChartData salesData) =
    own_key_order
      (first_seen
         (filter (fun k => negb (String.eqb k "__proto__"))
            (map productName salesData))).
Proof.
  unfold prepareChartData, Object_keys. rewrite map_map. simpl.
  now rewrite map_id, tally_keys.
Qed.

End Chart.

(** X1: the top product of a collection is the product name of one of its
    records, unless every record (if any) is named [__proto__]; likewise for
    the top category. *)
Theorem top_names_of_records (salesData : list Sale) :
  let kpis := calculateKPIs salesData in
  (Forall (fun sale => productName sale = "__proto__") salesData
   \/ In (topProduct kpis) (map productName salesData))
  /\ (Forall (fun sale => category sale = "__proto__") salesData
      \/ In (topCategory kpis) (map category salesData)).
Proof.
  assert (H : forall key,
             Forall (fun sale => key sale = "__proto__") salesData
             \/ Exists (fun sale => key sale <> "__proto__") salesData).
  { intros key. induction salesData as [| sale l IH]; [now left |].
    destruct (string_dec (key sale) "__proto__") as [E | Hne].
    - destruct IH as [IH | IH]; [left; now constructor | right; now constructor].
    - right. now constructor. }
  destruct salesData as [| sale l]; [split; left; constructor |].
  cbv zeta. rewrite calculateKPIs_nonempty by discriminate. simpl topProduct.
  simpl topCategory. split.
  - destruct (H productName) as [Hall | Hex]; [now left | right].
    now apply top_key_member.
  - destruct (H category) as [Hall | Hex]; [now left | right].
    now apply top_key_member.
Qed.

(** X2: whatever the product names are, the chart never shows a name twice,
    and it shows exactly the product names of the records other than
    [__proto__]. *)
Theorem chart_names_distinct (salesData : list Sale) :
  NoDup (map name (prepareChartData salesData))
  /\ forall k,
       In k (map name (prepareChartData salesData))
       <-> In k (map productName salesData) /\ k <> "__proto__".
Proof.
  rewrite prepareChartData_names. split.
  - apply (Permutation_NoDup (Permutation_sym (JSFacts.own_key_order_perm _))).
    apply first_seen_NoDup.
  - intros k. rewrite own_key_order_In, first_seen_In, filter_In.
    rewrite negb_true_iff, String.eqb_neq. reflexivity.
Qed.

(** X3: for product names that objects do not inherit and quantities that
    add up to less than [2^53], every bar of the chart holds a number and
    the bars add up to the quantity of all records. *)
Theorem chart_conserves_quantity (salesData : list Sale) :
  plain_keys productName salesData ->
  safe_quantities salesData ->
  Forall (fun entry => exists n, sales entry = JS.Prim (JS.Num n))
    (prepareChartData salesData)
  /\ Zsum (map (fun entry => numeric (sales entry)) (prepareChartData salesData))
     = Zsum (map quantity salesData).
Proof.
  intros Hp Hs. rewrite (prepareChartData_plain _ Hp). split.
  - apply Forall_forall. intros entry Hin. apply in_map_iff in Hin.
    destruct Hin as (k & <- & _). now eexists.
  - rewrite map_map. simpl.
    rewrite (map_ext _ _ (fun k => tallied_exact productName k salesData Hs)).
    rewrite (Zsum_perm _ _
               (Permutation_map _ (JSFacts.own_key_order_perm _))).
    apply Zsum_summed; [apply first_seen_NoDup |].
    intros sale Hin. apply first_seen_In. now apply in_map.
Qed.

Lemma chart_conserves_quantity_witness :
  let salesData :=
    [ sample 1 "Widget" "Tools" 1%float 2; sample 2 "7" "Tools" 1%float 3;
      sample 3 "Widget" "Tools" 1%float 4 ] in
  Zsum (map (fun entry => numeric (sales entry)) (prepareChartData salesData)) = 9.
Proof.
  intros salesData.
  assert (Hp : plain_keys productName salesData) by (repeat constructor).
  assert (Hs : safe_quantities salesData) by reflexivity.
  destruct (chart_conserves_quantity salesData Hp Hs) as [_ H].
  rewrite H. reflexivity.
Defined.

(** X4: for product names that objects do not inherit and a non-empty
    collection, the top product has a bar in the chart and no bar is higher
    than it. *)
Theorem top_product_is_highest_bar (salesData : list Sale) :
  salesData <> [] ->
  plain_keys productName salesData ->
  exists n,
    In {| name := topProduct (calculateKPIs salesData);
          sales := JS.Prim (JS.Num n) |} (prepareChartData salesData)
    /\ forall entry, In entry (prepareChartData salesData) ->
                     numeric (sales entry) <= n.
Proof.
  intros Hne Hp.
  rewrite (prepareChartData_plain _ Hp), (calculateKPIs_nonempty _ Hne).
  simpl topProduct.
  pose proof (top_key_tally productName salesData Hne Hp) as Hl.
  set (top := top_key (tally productName salesData)) in *.
  exists (tallied productName top salesData). split.
  - apply in_map_iff. exists top. split; [reflexivity |].
    now apply (last_greatest_In _ _ _ Hl).
  - intros entry Hin. apply in_map_iff in Hin. destruct Hin as (k & <- & Hk).
    simpl. destruct Hl as (b & c & E & Hb & Hc). rewrite E in Hk.
    apply in_app_or in Hk. destruct Hk as [Hk | [<- | Hk]].
    + now apply Hb.
    + lia.
    + specialize (Hc k Hk). simpl in Hc. lia.
Qed.

Lemma top_product_is_highest_bar_witness :
  let salesData :=
    [ sample 1 "Widget" "Tools" 1%float 2; sample 2 "Gadget" "Tools" 1%float 3 ] in
  exists n,
    In {| name := topProduct (calculateKPIs salesData);
          sales := JS.Prim (JS.Num n) |} (prepareChartData salesData)
    /\ forall entry, In entry (prepareChartData salesData) ->
                     numeric (sales entry) <= n.
Proof.
  intros salesData.
  apply (top_product_is_highest_bar salesData); [discriminate |].
  repeat constructor.
Defined.

(** X5: recording a sale of a product that is already charted, or of a
    product named [__proto__], leaves the order of the bars as it was; a new
    product whose name is not an array index gets the last bar. *)
Theorem chart_order_after_submit (now : Z) (today : string) (form : Form)
    (salesData : list Sale) :
  let k := form_productName form in
  let before := map name (prepareChartData salesData) in
  let after := map name (prepareChartData (handleSubmit now today form salesData)) in
  (In k (map productName salesData) \/ k = "__proto__" -> after = before)
  /\ (~ In k (map productName salesData) -> k <> "__proto__" ->
      JS.is_index k = false -> after = (before ++ [k])%list).
Proof.
  intros k before after. subst before after.
  rewrite !prepareChartData_names. unfold handleSubmit.
  rewrite map_app, filter_app. simpl map. simpl filter. fold k.
  set (names := filter (fun k0 => negb (String.eqb k0 "__proto__"))
                  (map productName salesData)).
  assert (Hmem : JS.mem k names = true <-> In k (map productName salesData)
                                           /\ k <> "__proto__").
  { rewrite JSFacts.mem_In. unfold names.
    rewrite filter_In, negb_true_iff, String.eqb_neq. reflexivity. }
  split.
  - intros H. destruct (String.eqb_spec k "__proto__") as [E | Hne]; simpl.
    + now rewrite app_nil_r.
    + destruct H as [H | H]; [| contradiction].
      rewrite first_seen_snoc.
      now rewrite (proj2 Hmem (conj H Hne)).
  - intros Hnin Hne Hidx.
    destruct (String.eqb_spec k "__proto__") as [E | _]; [contradiction |]. simpl.
    rewrite first_seen_snoc.
    destruct (JS.mem k names) eqn:E;
      [exfalso; destruct (proj1 Hmem eq_refl); tauto |].
    now apply own_key_order_snoc.
Qed.

Lemma chart_order_after_submit_witness :
  let salesData := [ sample 1 "Widget" "Tools" 1%float 2; sample 2 "7" "Tools" 1%float 3 ] in
  map name (prepareChartData
              (handleSubmit 3 "2025-01-02" (mkForm "Widget" 1%float 1 "Tools") salesData))
  = ["7"; "Widget"]
  /\ map name (prepareChartData
                 (handleSubmit 3 "2025-01-02" (mkForm "Gadget" 1%float 1 "Tools") salesData))
     = ["7"; "Widget"; "Gadget"].
Proof.
  intros salesData. split.
  - destruct (chart_order_after_submit 3 "2025-01-02"
                (mkForm "Widget" 1%float 1 "Tools") salesData) as [H _].
    rewrite H; [reflexivity | left; simpl; tauto].
  - destruct (chart_order_after_submit 3 "2025-01-02"
                (mkForm "Gadget" 1%float 1 "Tools") salesData) as [_ H].
    rewrite H; [reflexivity | | discriminate | reflexivity].
    simpl. intros [E | [E | []]]; discriminate E.
Defined.

(** X6: for product names that objects do not inherit, recording another
    sale of a charted product adds the quantity sold to the bar of that
    product, as the code adds (rounded to binary64), and leaves the rest of
    the chart as it was; the bar rises by exactly the quantity when the
    quantities add up to less than [2^53]. *)
Theorem chart_after_repeat_sale (now : Z) (today : string) (form : Form)
    (salesData : list Sale) :
  plain_keys productName salesData ->
  In (form_productName form) (map productName salesData) ->
  let after := handleSubmit now today form salesData in
  prepareChartData after
  = map (raise_bar (form_productName form) (form_quantity form))
      (prepareChartData salesData)
  /\ (safe_quantities after ->
      forall entry,
        In entry (prepareChartData salesData) ->
        name entry = form_productName form ->
        In {| name := name entry;
              sales := JS.Prim (JS.Num (numeric (sales entry) + form_quantity form)) |}
          (prepareChartData after)).
Proof.
  intros Hp Hin after.
  assert (Hk : JS.inherited (form_productName form) = false).
  { apply in_map_iff in Hin. destruct Hin as (sale & <- & Hs).
    unfold plain_keys in Hp. rewrite Forall_forall in Hp. now apply Hp. }
  assert (Hp' : plain_keys productName after).
  { unfold after, handleSubmit. apply Forall_app. split; [exact Hp |].
    now constructor. }
  assert (Hn : first_seen (map productName after)
               = first_seen (map productName salesData)).
  { unfold after, handleSubmit. rewrite map_app. simpl.
    now rewrite first_seen_snoc, (proj2 (JSFacts.mem_In _ _) Hin). }
  assert (E : prepareChartData after
              = map (raise_bar (form_productName form) (form_quantity form))
                  (prepareChartData salesData)).
  { rewrite (prepareChartData_plain _ Hp'), (prepareChartData_plain _ Hp), Hn, map_map.
    apply map_ext. intros k. unfold bar, raise_bar, after, handleSubmit. simpl.
    rewrite tallied_snoc. simpl.
    rewrite (String.eqb_sym k). now destruct (String.eqb (form_productName form) k). }
  split; [exact E |].
  intros Hsafe entry He Hname. rewrite E. apply in_map_iff. exists entry.
  split; [| exact He]. unfold raise_bar. rewrite Hname, String.eqb_refl.
  rewrite (prepareChartData_plain _ Hp) in He. apply in_map_iff in He.
  destruct He as (k & <- & _). simpl in *. subst k. f_equal. f_equal. f_equal.
  pose proof (tallied_exact productName (form_productName form) after Hsafe) as Ha.
  unfold after, handleSubmit in Ha. rewrite tallied_snoc, summed_snoc in Ha.
  simpl in Ha. rewrite String.eqb_refl in Ha. rewrite Ha.
  assert (Hs : safe_quantities salesData).
  { unfold safe_quantities, after, handleSubmit in *.
    rewrite map_app, fold_right_app in Hsafe. simpl in Hsafe.
    assert (G : forall (l : list Z) d, fold_right Z.add d l = fold_right Z.add 0 l + d).
    { induction l as [| z l IHl]; intros d; simpl; [lia | rewrite IHl; lia]. }
    rewrite G in Hsafe. pose proof (Z.abs_nonneg (form_quantity form)). lia. }
  now rewrite (tallied_exact productName _ _ Hs).
Qed.

Lemma chart_after_repeat_sale_witness :
  let salesData := [ sample 1 "Widget" "Tools" 1%float 2; sample 2 "Gadget" "Tools" 1%float 3 ] in
  prepareChartData
    (handleSubmit 3 "2025-01-02" (mkForm "Widget" 1%float 4 "Tools") salesData)
  = [ {| name := "Widget"; sales := JS.Prim (JS.Num 6) |};
      {| name := "Gadget"; sales := JS.Prim (JS.Num 3) |} ].
Proof.
  intros salesData.
  destruct (chart_after_repeat_sale 3 "2025-01-02"
              (mkForm "Widget" 1%float 4 "Tools") salesData) as [H _].
  - repeat constructor.
  - simpl. tauto.
  - rewrite H. reflexivity.
Defined.

(** X7: for product names that objects do not inherit and quantities that
    add up to less than [2^53], the order of the records decides only the
    order of the bars: two collections with the same records show the same
    bars. *)
Theorem chart_bars_order_independent (salesData salesData' : list Sale) :
  Permutation salesData salesData' ->
  plain_keys productName salesData ->
  safe_quantities salesData ->
  forall entry,
    In entry (prepareChartData salesData) <-> In entry (prepareChartData salesData').
Proof.
  intros P Hp Hs entry.
  pose proof (plain_keys_perm productName _ _ P Hp) as Hp'.
  pose proof (safe_quantities_perm _ _ P Hs) as Hs'.
  rewrite (prepareChartData_plain _ Hp), (prepareChartData_plain _ Hp').
  rewrite !in_map_iff.
  assert (H : forall k,
             In k (JS.own_key_order (first_seen (map productName salesData)))
             <-> In k (JS.own_key_order (first_seen (map productName salesData')))).
  { intros k. rewrite !own_key_order_In, !first_seen_In.
    split; apply Permutation_in; [| apply Permutation_sym]; now apply Permutation_map. }
  split; intros (k & <- & Hk); exists k; (split; [| now apply H]);
    unfold bar;
    now rewrite (tallied_exact productName k _ Hs),
                (tallied_exact productName k _ Hs'),
                (summed_perm productName k _ _ P).
Qed.

Lemma chart_bars_order_independent_witness :
  let a := sample 1 "Widget" "Tools" 1%float 2 in
  let b := sample 2 "Gadget" "Tools" 1%float 3 in
  In {| name := "Gadget"; sales := JS.Prim (JS.Num 3) |} (prepareChartData [b; a]).
Proof.
  intros a b.
  apply (chart_bars_order_independent [a; b] [b; a]).
  - apply perm_swap.
  - repeat constructor.
  - reflexivity.
  - simpl. tauto.
Defined.

(** X8: recording a sale raises [totalSales] by one and adds the total of
    the new record, [price * quantity], to [totalRevenue]. *)
Theorem kpis_after_submit (now : Z) (today : string) (form : Form)
    (salesData : list Sale) :
  let before := calculateKPIs salesData in
  let after := calculateKPIs (handleSubmit now today form salesData) in
  totalSales after = S (totalSales before)
  /\ totalRevenue after
     = (totalRevenue before + form_price form * number_of_Z (form_quantity form))%float.
Proof.
  cbv zeta.
  assert (Hne : handleSubmit now today form salesData <> [])
    by (unfold handleSubmit; now destruct salesData).
  rewrite (calculateKPIs_nonempty _ Hne). simpl totalSales at 1.
  simpl totalRevenue at 1. unfold handleSubmit.
  rewrite length_app, fold_left_app. simpl.
  destruct salesData as [| sale l].
  - split; reflexivity.
  - rewrite calculateKPIs_nonempty by discriminate. simpl. split; [lia | reflexivity].
Qed.

(** X17: the chart and the top product are decided by the product names
    and the quantities alone, and the top category by the categories and the
    quantities: prices, totals, dates and ids play no part. *)
Theorem tallies_ignore_prices (salesData salesData' : list Sale) :
  (map (fun sale => (productName sale, quantity sale)) salesData
   = map (fun sale => (productName sale, quantity sale)) salesData' ->
   prepareChartData salesData = prepareChartData salesData'
   /\ topProduct (calculateKPIs salesData) = topProduct (calculateKPIs salesData'))
  /\ (map (fun sale => (category sale, quantity sale)) salesData
      = map (fun sale => (category sale, quantity sale)) salesData' ->
      topCategory (calculateKPIs salesData) = topCategory (calculateKPIs salesData')).
Proof.
  assert (Hlen : forall key : Sale -> string,
             map (fun sale => (key sale, quantity sale)) salesData
             = map (fun sale => (key sale, quantity sale)) salesData' ->
             salesData = [] <-> salesData' = []).
  { intros key E. destruct salesData, salesData'; simpl in E; try discriminate;
      split; congruence. }
  assert (Htop : forall (key : Sale -> string) (sel : KPIs -> string),
             (forall l, l <> [] -> sel (calculateKPIs l) = top_key (tally key l)) ->
             sel (calculateKPIs []) = "None" ->
             map (fun sale => (key sale, quantity sale)) salesData
             = map (fun sale => (key sale, quantity sale)) salesData' ->
             sel (calculateKPIs salesData) = sel (calculateKPIs salesData')).
  { intros key sel Hsel Hnil E.
    destruct salesData as [| a l].
    - now rewrite (proj1 (Hlen key E) eq_refl).
    - destruct salesData' as [| a' l']; [discriminate E |].
      rewrite !Hsel by discriminate. now rewrite (tally_ext key _ _ E). }
  split.
  - intros E. split.
    + unfold prepareChartData. now rewrite (tally_ext productName _ _ E).
    + apply (Htop productName topProduct); [| reflexivity | exact E].
      intros l Hl. now rewrite calculateKPIs_nonempty.
  - intros E. apply (Htop category topCategory); [| reflexivity | exact E].
    intros l Hl. now rewrite calculateKPIs_nonempty.
Qed.

Lemma tallies_ignore_prices_witness :
  prepareChartData [ sample 1 "Widget" "Tools" 1%float 2 ]
  = prepareChartData [ sample 7 "Widget" "Toys" 5%float 2 ].
Proof.
  destruct (tallies_ignore_prices [ sample 1 "Widget" "Tools" 1%float 2 ]
              [ sample 7 "Widget" "Toys" 5%float 2 ]) as [H _].
  now destruct (H eq_refl).
Defined.

(** ** Further properties of the mutations *)

Section Mutations.

Lemma handleSubmit_record now today form salesData :
  handleSubmit now today form salesData
  = (salesData ++ [record_of (now, today, form)])%list.
Proof. reflexivity. Qed.

Lemma submit_all_records events : submit_all events = map record_of events.
Proof.
  induction events as [| [[now today] form] events IH] using rev_ind;
    [reflexivity |].
  now rewrite submit_all_snoc, handleSubmit_record, IH, map_app.
Qed.

Lemma deleteSale_records i events :
  deleteSale i (map record_of events)
  = map record_of (filter (fun event => negb (clock event =? i)) events).
Proof.
  unfold deleteSale. induction events as [| [[now today] form] events IH];
    [reflexivity |].
  cbn [map filter]. rewrite IH.
  change (id (record_of (now, today, form))) with now.
  change (clock (now, today, form)) with now.
  now destruct (now =? i).
Qed.

Lemma filter_keeps {A : Type} (f : A -> bool) l :
  Forall (fun a => f a = true) l -> filter f l = l.
Proof.
  induction 1 as [| a l Ha _ IH]; simpl; [reflexivity |].
  now rewrite Ha, IH.
Qed.

Lemma deleteSale_comm i j salesData :
  deleteSale i (deleteSale j salesData) = deleteSale j (deleteSale i salesData).
Proof.
  unfold deleteSale. induction salesData as [| sale l IH]; [reflexivity |].
  simpl. destruct (id sale =? j) eqn:Ej, (id sale =? i) eqn:Ei; simpl;
    rewrite ?Ej, ?Ei; simpl; now rewrite ?IH.
Qed.

End Mutations.

(** X9: after [deleteSale] no record has the deleted [id]; deleting twice is
    deleting once; two deletions can be done in either order; and the
    collection never grows. *)
Theorem deleteSale_algebra (i j : Z) (salesData : list Sale) :
  Forall (fun sale => id sale <> i) (deleteSale i salesData)
  /\ deleteSale i (deleteSale i salesData) = deleteSale i salesData
  /\ deleteSale i (deleteSale j salesData) = deleteSale j (deleteSale i salesData)
  /\ (List.length (deleteSale i salesData) <= List.length salesData)%nat.
Proof.
  assert (H : Forall (fun sale => id sale <> i) (deleteSale i salesData)).
  { apply Forall_forall. intros sale Hin. unfold deleteSale in Hin.
    apply filter_In in Hin. destruct Hin as [_ Hin].
    apply negb_true_iff in Hin. now apply Z.eqb_neq. }
  split; [exact H |]. split; [now apply deleteSale_keeps |]. split.
  - apply deleteSale_comm.
  - apply filter_length_le.
Qed.

(** X10: [deleteSale] removes every record that carries the [id].  Deleting
    the [id] of the sale just recorded also deletes the older records with
    that [id]; it gives back the collection as it was before the sale exactly
    when no older record has it. *)
Theorem delete_after_submit (now : Z) (today : string) (form : Form)
    (salesData : list Sale) :
  deleteSale now (handleSubmit now today form salesData) = deleteSale now salesData
  /\ (deleteSale now (handleSubmit now today form salesData) = salesData
      <-> Forall (fun sale => id sale <> now) salesData).
Proof.
  assert (E : deleteSale now (handleSubmit now today form salesData)
              = deleteSale now salesData).
  { unfold handleSubmit. rewrite deleteSale_app. unfold deleteSale at 2. simpl.
    rewrite Z.eqb_refl. simpl. apply app_nil_r. }
  split; [exact E |]. rewrite E. split.
  - intros H. rewrite <- H. apply Forall_forall. intros sale Hin.
    unfold deleteSale in Hin. apply filter_In in Hin. destruct Hin as [_ Hin].
    apply negb_true_iff in Hin. now apply Z.eqb_neq.
  - apply deleteSale_keeps.
Qed.

Lemma delete_after_submit_witness :
  let a := sample 1000 "Widget" "Tools" 1%float 2 in
  deleteSale 1000 (handleSubmit 1000 "2025-01-01" (mkForm "Gadget" 1%float 1 "Tools") [a])
  = []
  /\ deleteSale 1001 (handleSubmit 1001 "2025-01-01" (mkForm "Gadget" 1%float 1 "Tools") [a])
     = [a].
Proof.
  intros a. split.
  - destruct (delete_after_submit 1000 "2025-01-01"
                (mkForm "Gadget" 1%float 1 "Tools") [a]) as [H _].
    rewrite H. reflexivity.
  - destruct (delete_after_submit 1001 "2025-01-01"
                (mkForm "Gadget" 1%float 1 "Tools") [a]) as [_ H].
    apply H. repeat constructor. simpl. lia.
Defined.

(** X11: a session lists one record per submission, oldest first, each
    holding what was submitted; [totalSales] is the number of submissions. *)
Theorem submissions_in_order (events : list (Z * string * Form)) :
  submit_all events = map record_of events
  /\ map productName (submit_all events)
     = map (fun event => form_productName (snd event)) events
  /\ map quantity (submit_all events)
     = map (fun event => form_quantity (snd event)) events
  /\ totalSales (calculateKPIs (submit_all events)) = List.length events.
Proof.
  rewrite submit_all_records, !map_map. repeat split.
  - apply map_ext. now intros [[now today] form].
  - apply map_ext. now intros [[now today] form].
  - destruct events as [| event events]; [reflexivity |].
    rewrite calculateKPIs_nonempty by discriminate. simpl. now rewrite length_map.
Qed.

(** X12: in a session whose clock readings are all different, deleting the
    sale of one submission gives the collection of the session without that
    submission. *)
Theorem delete_is_never_recorded (before after : list (Z * string * Form))
    (event : Z * string * Form) :
  NoDup (map clock (before ++ event :: after)) ->
  deleteSale (clock event) (submit_all (before ++ event :: after))
  = submit_all (before ++ after).
Proof.
  intros Hnd. rewrite !submit_all_records, deleteSale_records.
  f_equal. rewrite map_app in Hnd. simpl in Hnd.
  apply NoDup_remove in Hnd. destruct Hnd as [_ Hnin].
  rewrite filter_app. simpl. rewrite Z.eqb_refl. simpl.
  assert (H : forall l, ~ In (clock event) (map clock l) ->
                filter (fun e => negb (clock e =? clock event)) l = l).
  { intros l Hl. apply filter_keeps. apply Forall_forall. intros e He.
    apply negb_true_iff, Z.eqb_neq. intros E. apply Hl. rewrite <- E.
    now apply in_map. }
  rewrite !H; [reflexivity | |]; intros Hin; apply Hnin; apply in_or_app;
    [now right | now left].
Qed.

Lemma delete_is_never_recorded_witness :
  let f := mkForm "Widget" 1%float 1 "Tools" in
  let g := mkForm "Gadget" 2%float 1 "Tools" in
  deleteSale 1001
    (submit_all [ (1000, "2025-01-01", f); (1001, "2025-01-01", g);
                  (1002, "2025-01-02", f) ])
  = submit_all [ (1000, "2025-01-01", f); (1002, "2025-01-02", f) ].
Proof.
  intros f g.
  apply (delete_is_never_recorded [ (1000, "2025-01-01", f) ]
           [ (1002, "2025-01-02", f) ] (1001, "2025-01-01", g)).
  unfold clock. simpl.
  repeat (apply NoDup_cons; [simpl; intuition lia |]). apply NoDup_nil.
Defined.

(** ** Further properties of the persistence *)

Section Storage.

Lemma json_of_number_cases x :
  json_of_number x = if is_finite x then JFloat (canonical_number x) else JNull.
Proof. reflexivity. Qed.

Lemma sale_of_json_saved sale :
  sale_of_json (json_of_sale sale)
  = if finite_sale sale then Some (canonical_sale sale) else None.
Proof.
  unfold json_of_sale, finite_sale, canonical_sale. rewrite !json_of_number_cases.
  destruct (is_finite (price sale)), (is_finite (total sale)); reflexivity.
Qed.

Lemma sales_of_json_saved salesData :
  sales_of_json (map json_of_sale salesData)
  = if forallb finite_sale salesData
    then Some (map canonical_sale salesData) else None.
Proof.
  induction salesData as [| sale l IH]; [reflexivity |].
  cbn [map sales_of_json forallb]. rewrite sale_of_json_saved, IH.
  destruct (finite_sale sale); [| reflexivity].
  now destruct (forallb finite_sale l).
Qed.

Lemma load_saved salesData ls :
  load (save salesData ls)
  = if forallb finite_sale salesData
    then Some (map canonical_sale salesData) else None.
Proof.
  unfold load, save, getItem, setItem. rewrite String.eqb_refl.
  apply sales_of_json_saved.
Qed.

Lemma canonical_number_storable x :
  is_finite x = true -> storable (canonical_number x) = true.
Proof.
  unfold storable, canonical_number. intros H.
  destruct (PrimFloat.Leibniz.eqb x neg_zero) eqn:E.
  - reflexivity.
  - now rewrite H, E.
Qed.

Lemma canonical_sale_storable sale :
  finite_sale sale = true -> storable_sale (canonical_sale sale).
Proof.
  unfold finite_sale, storable_sale. intros H.
  apply andb_true_iff in H. destruct H as [Hp Ht]. simpl.
  split; now apply canonical_number_storable.
Qed.

Lemma getItem_save salesData ls :
  getItem "salesData" (save salesData ls) = Some (JSON_stringify salesData).
Proof. unfold getItem, save, setItem. now rewrite String.eqb_refl. Qed.

Lemma getItem_save_other k salesData ls :
  k <> "salesData" -> getItem k (save salesData ls) = getItem k ls.
Proof.
  intros H. unfold getItem, save, setItem.
  now destruct (String.eqb_spec k "salesData").
Qed.

Lemma run_snoc events e st : run (events ++ [e]) st = step (run events st) e.
Proof. unfold run. now rewrite fold_left_app. Qed.

Lemma mount_sync ls salesData ls' :
  mount ls = Some (salesData, ls') ->
  getItem "salesData" ls' = Some (JSON_stringify salesData)
  /\ forall k, k <> "salesData" -> getItem k ls' = getItem k ls.
Proof.
  unfold mount. destruct (getItem "salesData" ls) as [j |].
  - destruct (JSON_parse j) as [loaded |]; [| discriminate].
    intros H. injection H as Hs Hl. subst salesData ls'.
    split; [apply getItem_save |].
    intros k Hk. now rewrite !getItem_save_other.
  - intros H. injection H as Hs Hl. subst salesData ls'.
    split; [apply getItem_save |].
    intros k Hk. now rewrite getItem_save_other.
Qed.

Lemma run_sync events st :
  let st' := run events st in
  (events <> [] ->
   getItem "salesData" (snd st') = Some (JSON_stringify (fst st')))
  /\ (forall k, k <> "salesData" -> getItem k (snd st') = getItem k (snd st))
  /\ fst st' = fold_left (fun salesData e => handle e salesData) events (fst st).
Proof.
  induction events as [| e events IH] using rev_ind.
  - simpl. repeat split. congruence.
  - cbv zeta in *. rewrite run_snoc, fold_left_app.
    destruct IH as (_ & IHk & IHs). unfold step. simpl. split; [| split].
    + intros _. apply getItem_save.
    + intros k Hk. rewrite getItem_save_other by exact Hk. now apply IHk.
    + now rewrite IHs.
Qed.

End Storage.

(** X13: what is read back after a save.  When every price and total is a
    finite number the collection comes back with each negative zero replaced
    by zero; when one of them is NaN or infinite the stored value is not a
    [Sale[]] any more. *)
Theorem load_after_save (salesData : list Sale) (ls : localStorage) :
  load (save salesData ls)
  = if forallb finite_sale salesData
    then Some (map canonical_sale salesData) else None.
Proof. apply load_saved. Qed.

(** X14: a collection that was read back is saved and read back
    unchanged. *)
Theorem load_save_stable (salesData loaded : list Sale) (ls ls' : localStorage) :
  load (save salesData ls) = Some loaded ->
  load (save loaded ls') = Some loaded.
Proof.
  rewrite load_saved. destruct (forallb finite_sale salesData) eqn:E;
    [| discriminate].
  intros H. injection H as <-.
  unfold load, save, getItem, setItem. rewrite String.eqb_refl.
  apply sales_of_json_of_sales. rewrite forallb_forall in E.
  apply Forall_forall. intros sale Hin. apply in_map_iff in Hin.
  destruct Hin as (s & <- & Hs). apply canonical_sale_storable. now apply E.
Qed.

Lemma load_save_stable_witness :
  let salesData := [ sample 1 "Widget" "Tools" neg_zero 3 ] in
  let loaded := [ sample 1 "Widget" "Tools" zero 3 ] in
  load (save loaded (fun _ => None)) = Some loaded.
Proof.
  intros salesData loaded.
  apply (load_save_stable salesData loaded (fun _ => None) (fun _ => None)).
  reflexivity.
Defined.

(** X15: once an event has been handled, the stored item is the current
    collection, whatever the events were (submissions, deletions, clearing);
    the other items of the storage are never touched, and the collection
    does not depend on the storage. *)
Theorem storage_follows_collection (events : list event)
    (salesData : list Sale) (ls : localStorage) :
  let st := run events (salesData, ls) in
  (events <> [] ->
   getItem "salesData" (snd st) = Some (JSON_stringify (fst st)))
  /\ (forall k, k <> "salesData" -> getItem k (snd st) = getItem k ls)
  /\ fst st = fold_left (fun s e => handle e s) events salesData.
Proof. apply (run_sync events (salesData, ls)). Qed.

Lemma storage_follows_collection_witness :
  let form := mkForm "Widget" 9.99%float 3 "Tools" in
  let st := run [ Submit 1 "2025-01-01" form; Submit 2 "2025-01-01" form;
                  Delete 1 ] ([], fun _ => None) in
  getItem "salesData" (snd st) = Some (JSON_stringify (fst st))
  /\ getItem "theme" (snd st) = None.
Proof.
  intros form st.
  destruct (storage_follows_collection
              [ Submit 1 "2025-01-01" form; Submit 2 "2025-01-01" form; Delete 1 ]
              [] (fun _ => None)) as (H1 & H2 & _).
  split; [apply H1; discriminate | apply H2; discriminate].
Defined.

(** X16: restarting restores the collection.  After the component has
    started and handled any events, if the prices and totals it holds are
    numbers that JSON writes as themselves, a new start reads back the same
    collection and leaves it stored. *)
Theorem restart_restores (ls : localStorage) (st : list Sale * localStorage)
    (events : list event) :
  mount ls = Some st ->
  let st' := run events st in
  Forall storable_sale (fst st') ->
  exists ls'',
    mount (snd st') = Some (fst st', ls'')
    /\ getItem "salesData" ls'' = Some (JSON_stringify (fst st')).
Proof.
  intros Hm st' Hs.
  assert (Hsync : getItem "salesData" (snd st') = Some (JSON_stringify (fst st'))).
  { destruct events as [| e events].
    - destruct st as [s0 ls0]. apply (mount_sync _ _ _ Hm).
    - apply (run_sync (e :: events) st). discriminate. }
  unfold mount. rewrite Hsync. unfold JSON_stringify, JSON_parse.
  rewrite (sales_of_json_of_sales _ Hs).
  eexists. split; [reflexivity | apply getItem_save].
Qed.

Lemma restart_restores_witness :
  let form := mkForm "Widget" 9.99%float 3 "Tools" in
  let st := run [ Submit 1 "2025-01-01" form; ClearAll; Submit 2 "2025-01-02" form ]
              ([], save [] (fun _ => None)) in
  exists ls'',
    mount (snd st) = Some (fst st, ls'')
    /\ getItem "salesData" ls'' = Some (JSON_stringify (fst st)).
Proof.
  intros form st.
  apply (restart_restores (fun _ => None) ([], save [] (fun _ => None))
           [ Submit 1 "2025-01-01" form; ClearAll; Submit 2 "2025-01-02" form ]).
  - reflexivity.
  - repeat constructor.
Defined.
